(** * LLM serving facade: cache, metrics and request orchestration

    A shallow embedding of [config.py], [cache.py], [metrics.py] and the
    [/generate] and [/metrics] handlers of [app.py], with the properties
    of the caching layer, the metrics layer and the orchestrator.

    Conventions.
    - A Python [str] is the list of its code points, [bytes] a list of
      [Byte.byte].
    - A Python [float] is the rational of [Q] it denotes.  The
      additions of [sum] and the divisions of [get_stats] round to the
      nearest double, ties to even ([round64]); the differences of clock
      readings are kept as they are.  Infinities and NaN are not
      modelled: no sum of a hundred utilisation percentages or response
      times reaches them.
    - Everything outside the process (the clock, psutil, the redis
      service, tokenizer and model) is an oracle of the environment,
      asked once per call and indexed by the number of calls made so far.
    - A Python exception is a value carried by [Raise]. *)

From Stdlib Require Import ZArith NArith QArith Lia List.
From Stdlib Require Import Strings.Ascii Strings.String Strings.Byte Init.Decimal.
From stdpp Require Import base option list gmap.

Open Scope list_scope.

(** ** Python values *)

Definition char := N.
Definition str := list char.
Definition bytes := list byte.

(** The [str] of an ASCII literal of the source. *)
Definition py (s : string) : str := map N_of_ascii (list_ascii_of_string s).

Definition byte_of_N (n : N) : byte :=
  match Byte.of_N (n mod 256) with
  | Some b => b
  | None => x00
  end.

(** [bool(x)] of a [str] or [bytes]: non-empty. *)
Definition truthy {A} (s : list A) : bool :=
  match s with
  | [] => false
  | _ :: _ => true
  end.

(** [bool(x)] of an [Optional]: [None] is false. *)
Definition truthy_opt {A} (o : option (list A)) : bool :=
  match o with
  | None => false
  | Some s => truthy s
  end.

(** *** Formatting of numbers *)

Definition hexdigit (d : N) : char :=
  (if d <? 10 then 48 + d else 87 + d)%N.

Fixpoint uint_digits (d : Decimal.uint) : str :=
  match d with
  | Nil => []
  | D0 r => 48%N :: uint_digits r
  | D1 r => 49%N :: uint_digits r
  | D2 r => 50%N :: uint_digits r
  | D3 r => 51%N :: uint_digits r
  | D4 r => 52%N :: uint_digits r
  | D5 r => 53%N :: uint_digits r
  | D6 r => 54%N :: uint_digits r
  | D7 r => 55%N :: uint_digits r
  | D8 r => 56%N :: uint_digits r
  | D9 r => 57%N :: uint_digits r
  end.

(** ["%d" % n] *)
Definition decimal (n : nat) : str := uint_digits (Nat.to_uint n).

(** ["%0<w>x" % n], lower case *)
Fixpoint hex_fixed (w : nat) (n : N) : str :=
  match w with
  | O => []
  | S w' => hex_fixed w' (n / 16) ++ [hexdigit (n mod 16)]
  end.

(** ** Exceptions and outcomes *)

(** Exception objects that reach the handlers of this program. *)
Inductive exn : Type :=
  (** raised by a collaborator; [is_exception] tells whether its class
      derives from [Exception] (an error) or from [BaseException] only
      (KeyboardInterrupt, SystemExit, ...); [message] is [str(e)] *)
  | Raised (is_exception : bool) (message : str)
  (** raised by [str.encode()] on a lone surrogate *)
  | UnicodeEncodeError (object : str) (start stop : nat).

Definition isinstance_Exception (e : exn) : bool :=
  match e with
  | Raised b _ => b
  | UnicodeEncodeError _ _ _ => true
  end.

(** [str(e)] *)
Definition exn_str (e : exn) : str :=
  match e with
  | Raised _ m => m
  | UnicodeEncodeError o start stop =>
      if (stop =? S start)%nat then
        let c := nth start o 0%N in
        py "'utf-8' codec can't encode character '\"
        ++ (if (c <=? 0xff)%N then py "x" ++ hex_fixed 2 c
            else if (c <=? 0xffff)%N then py "u" ++ hex_fixed 4 c
            else py "U" ++ hex_fixed 8 c)
        ++ py "' in position " ++ decimal start
        ++ py ": surrogates not allowed"
      else
        py "'utf-8' codec can't encode characters in position "
        ++ decimal start ++ py "-" ++ decimal (stop - 1)
        ++ py ": surrogates not allowed"
  end.

Inductive outcome (E A : Type) : Type :=
  | Return (a : A)
  | Raise (e : E).
Arguments Return {E A} a.
Arguments Raise {E A} e.

(** ** UTF-8, the codec of [str.encode()] and [bytes.decode()] *)

Definition is_surrogate (c : char) : bool :=
  ((0xD800 <=? c) && (c <=? 0xDFFF))%N.

Definition utf8_char (c : char) : bytes :=
  (if c <? 0x80 then [byte_of_N c]
   else if c <? 0x800 then
     [byte_of_N (N.lor 0xC0 (N.shiftr c 6));
      byte_of_N (N.lor 0x80 (N.land c 0x3F))]
   else if c <? 0x10000 then
     [byte_of_N (N.lor 0xE0 (N.shiftr c 12));
      byte_of_N (N.lor 0x80 (N.land (N.shiftr c 6) 0x3F));
      byte_of_N (N.lor 0x80 (N.land c 0x3F))]
   else
     [byte_of_N (N.lor 0xF0 (N.shiftr c 18));
      byte_of_N (N.lor 0x80 (N.land (N.shiftr c 12) 0x3F));
      byte_of_N (N.lor 0x80 (N.land (N.shiftr c 6) 0x3F));
      byte_of_N (N.lor 0x80 (N.land c 0x3F))])%N.

(** Length of the run of surrogates at the front of [s]. *)
Fixpoint surrogate_run (s : str) : nat :=
  match s with
  | c :: s' => if is_surrogate c then S (surrogate_run s') else O
  | [] => O
  end.

Fixpoint encode_from (pos : nat) (whole s : str) : outcome exn bytes :=
  match s with
  | [] => Return []
  | c :: s' =>
      if is_surrogate c then
        Raise (UnicodeEncodeError whole pos (pos + S (surrogate_run s')))
      else
        match encode_from (S pos) whole s' with
        | Return b => Return (utf8_char c ++ b)
        | Raise e => Raise e
        end
  end.

(** [text.encode()]: strict UTF-8. *)
Definition encode (text : str) : outcome exn bytes := encode_from 0 text text.

Definition is_cont (b : byte) : bool :=
  let n := Byte.to_N b in ((0x80 <=? n) && (n <=? 0xBF))%N.

Definition in_range (lo hi : N) (b : byte) : bool :=
  let n := Byte.to_N b in ((lo <=? n) && (n <=? hi))%N.

Definition low6 (b : byte) : N := N.land (Byte.to_N b) 0x3F.

(** [b.decode()]: strict UTF-8; [None] stands for UnicodeDecodeError. *)
Fixpoint decode (b : bytes) : option str :=
  match b with
  | [] => Some []
  | b0 :: r0 =>
      let n0 := Byte.to_N b0 in
      if (n0 <? 0x80)%N then cons n0 <$> decode r0
      else if in_range 0xC2 0xDF b0 then
        match r0 with
        | b1 :: r1 =>
            if is_cont b1
            then cons (N.shiftl (N.land n0 0x1F) 6 + low6 b1)%N <$> decode r1
            else None
        | _ => None
        end
      else if in_range 0xE0 0xEF b0 then
        match r0 with
        | b1 :: b2 :: r2 =>
            if in_range (if (n0 =? 0xE0)%N then 0xA0 else 0x80)
                        (if (n0 =? 0xED)%N then 0x9F else 0xBF) b1
               && is_cont b2
            then cons (N.shiftl (N.land n0 0x0F) 12
                       + N.shiftl (low6 b1) 6 + low6 b2)%N <$> decode r2
            else None
        | _ => None
        end
      else if in_range 0xF0 0xF4 b0 then
        match r0 with
        | b1 :: b2 :: b3 :: r3 =>
            if in_range (if (n0 =? 0xF0)%N then 0x90 else 0x80)
                        (if (n0 =? 0xF4)%N then 0x8F else 0xBF) b1
               && is_cont b2 && is_cont b3
            then cons (N.shiftl (N.land n0 0x07) 18 + N.shiftl (low6 b1) 12
                       + N.shiftl (low6 b2) 6 + low6 b3)%N <$> decode r3
            else None
        | _ => None
        end
      else None
  end.

(** ** MD5 (RFC 1321), the digest of [hashlib.md5] *)

Definition mask32 (x : Z) : Z := x mod 2 ^ 32.

Definition rotl32 (x c : Z) : Z :=
  mask32 (Z.lor (Z.shiftl x c) (Z.shiftr x (32 - c))).

Definition not32 (x : Z) : Z := Z.lxor x 0xffffffff.

Definition md5_K : list Z :=
  [0xd76aa478; 0xe8c7b756; 0x242070db; 0xc1bdceee;
   0xf57c0faf; 0x4787c62a; 0xa8304613; 0xfd469501;
   0x698098d8; 0x8b44f7af; 0xffff5bb1; 0x895cd7be;
   0x6b901122; 0xfd987193; 0xa679438e; 0x49b40821;
   0xf61e2562; 0xc040b340; 0x265e5a51; 0xe9b6c7aa;
   0xd62f105d; 0x02441453; 0xd8a1e681; 0xe7d3fbc8;
   0x21e1cde6; 0xc33707d6; 0xf4d50d87; 0x455a14ed;
   0xa9e3e905; 0xfcefa3f8; 0x676f02d9; 0x8d2a4c8a;
   0xfffa3942; 0x8771f681; 0x6d9d6122; 0xfde5380c;
   0xa4beea44; 0x4bdecfa9; 0xf6bb4b60; 0xbebfbc70;
   0x289b7ec6; 0xeaa127fa; 0xd4ef3085; 0x04881d05;
   0xd9d4d039; 0xe6db99e5; 0x1fa27cf8; 0xc4ac5665;
   0xf4292244; 0x432aff97; 0xab9423a7; 0xfc93a039;
   0x655b59c3; 0x8f0ccc92; 0xffeff47d; 0x85845dd1;
   0x6fa87e4f; 0xfe2ce6e0; 0xa3014314; 0x4e0811a1;
   0xf7537e82; 0xbd3af235; 0x2ad7d2bb; 0xeb86d391]%Z.

Definition md5_s : list Z :=
  [7; 12; 17; 22; 7; 12; 17; 22; 7; 12; 17; 22; 7; 12; 17; 22;
   5; 9; 14; 20; 5; 9; 14; 20; 5; 9; 14; 20; 5; 9; 14; 20;
   4; 11; 16; 23; 4; 11; 16; 23; 4; 11; 16; 23; 4; 11; 16; 23;
   6; 10; 15; 21; 6; 10; 15; 21; 6; 10; 15; 21; 6; 10; 15; 21]%Z.

Definition md5_state : Type := Z * Z * Z * Z.

Definition md5_init : md5_state :=
  (0x67452301, 0xefcdab89, 0x98badcfe, 0x10325476)%Z.

(** One of the 64 operations of a block; [M] holds its 16 words. *)
Definition md5_step (M : list Z) (st : md5_state) (i : nat) : md5_state :=
  let '(a, b, c, d) := st in
  let '(f, g) :=
    if (i <? 16)%nat then
      (Z.lor (Z.land b c) (Z.land (not32 b) d), i)
    else if (i <? 32)%nat then
      (Z.lor (Z.land d b) (Z.land (not32 d) c), (5 * i + 1) mod 16)%nat
    else if (i <? 48)%nat then
      (Z.lxor (Z.lxor b c) d, (3 * i + 5) mod 16)%nat
    else
      (Z.lxor c (Z.lor b (not32 d)), (7 * i) mod 16)%nat in
  let f' := mask32 (f + a + nth i md5_K 0 + nth g M 0)%Z in
  (d, mask32 (b + rotl32 f' (nth i md5_s 0))%Z, b, c).

Definition md5_block (st : md5_state) (M : list Z) : md5_state :=
  let '(a0, b0, c0, d0) := st in
  let '(a, b, c, d) := fold_left (md5_step M) (seq 0 64) st in
  (mask32 (a0 + a), mask32 (b0 + b), mask32 (c0 + c), mask32 (d0 + d))%Z.

Definition byteZ (b : byte) : Z := Z.of_N (Byte.to_N b).

(** Little-endian 32-bit words of a byte string. *)
Fixpoint words_of_bytes (bs : bytes) : list Z :=
  match bs with
  | b0 :: b1 :: b2 :: b3 :: r =>
      (byteZ b0 + 2 ^ 8 * byteZ b1 + 2 ^ 16 * byteZ b2 + 2 ^ 24 * byteZ b3)%Z
      :: words_of_bytes r
  | _ => []
  end.

(** The [n] little-endian bytes of [x]. *)
Fixpoint le_bytes (n : nat) (x : Z) : bytes :=
  match n with
  | O => []
  | S n' => byte_of_N (Z.to_N (x mod 256)) :: le_bytes n' (x / 256)
  end.

(** Padding to a multiple of 64 bytes: a one bit, zeros, the bit length. *)
Definition md5_pad (msg : bytes) : bytes :=
  let len := length msg in
  msg ++ [x80] ++ repeat x00 ((119 - len mod 64) mod 64)
      ++ le_bytes 8 ((8 * Z.of_nat len) mod 2 ^ 64).

Fixpoint md5_blocks (n : nat) (ws : list Z) (st : md5_state) : md5_state :=
  match n with
  | O => st
  | S n' => md5_blocks n' (skipn 16 ws) (md5_block st (firstn 16 ws))
  end.

(** The digest as the 128-bit little-endian integer A | B | C | D. *)
Definition md5_int (msg : bytes) : Z :=
  let ws := words_of_bytes (md5_pad msg) in
  let '(a, b, c, d) := md5_blocks (length ws / 16) ws md5_init in
  (a + 2 ^ 32 * (b + 2 ^ 32 * (c + 2 ^ 32 * d)))%Z.

(** [hashlib.md5(msg).digest()] *)
Definition md5_digest (msg : bytes) : bytes := le_bytes 16 (md5_int msg).

(** [.hexdigest()]: two lower-case hexadecimal digits per byte. *)
Definition hexdigest (d : bytes) : str :=
  flat_map (fun b => hex_fixed 2 (Byte.to_N b)) d.

(** ** config.py *)

Module Config.
Definition MODEL_NAME : str := py "microsoft/DialoGPT-small".
Definition MAX_LENGTH : Z := 100.
Definition TEMPERATURE : Q := (7 # 10)%Q.
Definition CACHE_TTL : Z := 3600.
Definition HOST : str := py "0.0.0.0".
Definition PORT : Z := 8000.
Definition MAX_CONCURRENT_REQUESTS : Z := 10.
End Config.

(** ** The process and its environment *)

(** [class RequestMetrics] of metrics.py *)
Record RequestMetrics : Type := {
  timestamp : Q;
  response_time : Q;
  input_length : nat;
  output_length : nat;
  cache_hit : bool;
  memory_usage : Q;
  cpu_usage : Q
}.

(** The attributes of a [MetricsCollector] object. *)
Record MetricsCollector : Type := {
  requests : list RequestMetrics;
  max_requests : nat
}.

(** The attributes of a [Cache] object: with [cache_type] "redis" it
    holds the client of the remote service, with "memory" the dict
    [memory_cache] from keys to responses. *)
Inductive Cache : Type :=
  | RedisCache
  | MemoryCache (memory_cache : gmap str str).

Definition cache_type (c : Cache) : str :=
  match c with
  | RedisCache => py "redis"
  | MemoryCache _ => py "memory"
  end.

(** A call that leaves the process. *)
Inductive event : Type :=
  | time_time
  | virtual_memory
  | cpu_percent
  | redis_get (key : str)
  | redis_setex (key : str) (ttl : Z) (value : str)
  | model_generate (text : str) (max_length : Z) (temperature : Q).

(** What the outside answers; the first argument is the number of
    calls made before this one.  [engine] stands for the three steps
    [tokenizer.encode], [model.generate], [tokenizer.decode] and gives
    the decoded output. *)
Record Env : Type := {
  clock : nat -> Q;
  psutil_virtual_memory_percent : nat -> outcome exn Q;
  psutil_cpu_percent : nat -> outcome exn Q;
  redis_client_get : nat -> str -> outcome exn (option bytes);
  redis_client_setex : nat -> str -> Z -> str -> outcome exn unit;
  engine : nat -> str -> Z -> Q -> outcome exn str
}.

(** The module-level objects [cache] and [metrics_collector], and the
    calls made so far. *)
Record World : Type := {
  cache : Cache;
  metrics_collector : MetricsCollector;
  calls : list event
}.

(** ** Computations: environment, state and exceptions *)

Definition M (E A : Type) : Type := Env -> World -> outcome E A * World.

Definition ret {E A} (a : A) : M E A := fun _ w => (Return a, w).

Definition raise {E A} (e : E) : M E A := fun _ w => (Raise e, w).

Definition bind {E A B} (m : M E A) (k : A -> M E B) : M E B :=
  fun env w =>
    match m env w with
    | (Return a, w') => k a env w'
    | (Raise e, w') => (Raise e, w')
    end.

Notation "x <- m ;; k" := (bind m (fun x => k))
  (at level 100, m at next level, right associativity).
Notation "m ;;; k" := (bind m (fun _ => k))
  (at level 100, right associativity).

(** [try: body  except <anything raised> as e: handler e] *)
Definition try_except {E E' A} (body : M E A) (handler : E -> M E' A)
  : M E' A :=
  fun env w =>
    match body env w with
    | (Return a, w') => (Return a, w')
    | (Raise e, w') => handler e env w'
    end.

(** A computation whose exceptions pass through a caller unhandled. *)
Definition propagate {E E' A} (inj : E -> E') (m : M E A) : M E' A :=
  try_except m (fun e => raise (inj e)).

(** The outcome of an expression that touches no state. *)
Definition eval {E A} (o : outcome E A) : M E A := fun _ w => (o, w).

(** The world once one more call to the outside is on record. *)
Definition logged (ev : event) (w : World) : World :=
  {| cache := cache w;
     metrics_collector := metrics_collector w;
     calls := calls w ++ [ev] |}.

(** A call to the outside: it is answered by the environment and logged. *)
Definition call {A} (ev : event) (answer : Env -> nat -> outcome exn A)
  : M exn A :=
  fun env w => (answer env (length (calls w)), logged ev w).

Definition get_cache {E} : M E Cache := fun _ w => (Return (cache w), w).

Definition put_cache {E} (c : Cache) : M E unit :=
  fun _ w =>
    (Return tt,
     {| cache := c;
        metrics_collector := metrics_collector w;
        calls := calls w |}).

Definition get_metrics_collector {E} : M E MetricsCollector :=
  fun _ w => (Return (metrics_collector w), w).

Definition put_metrics_collector {E} (mc : MetricsCollector) : M E unit :=
  fun _ w =>
    (Return tt,
     {| cache := cache w; metrics_collector := mc; calls := calls w |}).

(** [time.time()] *)
Definition time : M exn Q :=
  call time_time (fun env n => Return (clock env n)).

(** ** cache.py *)

Module Cache.

(** [Cache.__init__], with the value of [Config.USE_REDIS] *)
Definition __init__ (USE_REDIS : bool) : Cache :=
  if USE_REDIS then RedisCache else MemoryCache ∅.

(** [hashlib.md5(text.encode()).hexdigest()] *)
Definition _get_key (text : str) : outcome exn str :=
  match encode text with
  | Return b => Return (hexdigest (md5_digest b))
  | Raise e => Raise e
  end.

(** What the [try] block of [get] can raise: an exception of the
    client, or the UnicodeDecodeError of [cached.decode()]. *)
Inductive get_exn : Type :=
  | client_error (e : exn)
  | UnicodeDecodeError.

Definition get (text : str) : M exn (option str) :=
  key <- eval (_get_key text) ;;
  self <- get_cache ;;
  match self with
  | RedisCache =>
      try_except
        (cached <- propagate client_error
                     (call (redis_get key)
                           (fun env n => redis_client_get env n key)) ;;
         if truthy_opt cached then
           match cached ≫= decode with
           | Some s => ret (Some s)
           | None => raise UnicodeDecodeError
           end
         else ret None)
        (fun _ => ret None)
  | MemoryCache memory_cache => ret (memory_cache !! key)
  end.

Definition set (text response : str) : M exn unit :=
  key <- eval (_get_key text) ;;
  self <- get_cache ;;
  match self with
  | RedisCache =>
      try_except
        (call (redis_setex key Config.CACHE_TTL response)
              (fun env n =>
                 redis_client_setex env n key Config.CACHE_TTL response))
        (fun _ : exn => ret tt)
  | MemoryCache memory_cache =>
      put_cache (MemoryCache (<[key := response]> memory_cache))
  end.

End Cache.

(** ** Built-ins used by metrics.py and app.py *)

(** [l[i:]] *)
Definition slice_from {A} (i : Z) (l : list A) : list A :=
  let len := Z.of_nat (length l) in
  let start := if (i <? 0)%Z then Z.max (len + i) 0 else Z.min i len in
  skipn (Z.to_nat start) l.

(** [l.pop(0)] as a statement, on the non-empty list it is applied to *)
Definition pop0 {A} (l : list A) : list A := tl l.

(** *** Double-precision arithmetic *)

(** [n / d] rounded to the nearest integer, ties to even, for [n >= 0]
    and [d > 0]. *)
Definition round_half_even (n d : Z) : Z :=
  let q := (n / d)%Z in
  let r := (n mod d)%Z in
  if (2 * r <? d)%Z then q
  else if (d <? 2 * r)%Z then (q + 1)%Z
  else if Z.even q then q else (q + 1)%Z.

(** The [e] with [2 ^ e <= a / d < 2 ^ (e + 1)], for [a, d > 0]. *)
Definition binade (a d : Z) : Z :=
  let e0 := (Z.log2 a - Z.log2 d)%Z in
  if (if (0 <=? e0)%Z then (d * 2 ^ e0 <=? a)%Z
      else (d <=? a * 2 ^ (- e0))%Z)
  then e0 else (e0 - 1)%Z.

Definition pow2 (e : Z) : Q :=
  if (0 <=? e)%Z then inject_Z (2 ^ e) else 1 # Z.to_pos (2 ^ (- e)).

(** The IEEE 754 binary64 number nearest to [x], ties to even: 53
    significant bits, the last place no finer than [2 ^ -1074]. *)
Definition round64 (x : Q) : Q :=
  let n := Qnum x in
  let d := Zpos (Qden x) in
  if (n =? 0)%Z then 0%Q
  else
    let a := Z.abs n in
    let k := Z.max (binade a d - 52) (-1074) in
    let m := if (0 <=? k)%Z then round_half_even a (d * 2 ^ k)
             else round_half_even (a * 2 ^ (- k)) d in
    let v := Qred (inject_Z m * pow2 k) in
    if (n <? 0)%Z then Qopp v else v.

(** [sum(...)] of floats: from 0, left to right, every addition a
    double addition, as CPython adds them up to version 3.11 (later
    versions compensate the rounding errors of the partial sums) *)
Definition sum (l : list Q) : Q :=
  fold_left (fun acc x => round64 (acc + x)) l 0%Q.

(** [float(n)], exact for the lengths and counts it is applied to *)
Definition float_of_int (n : nat) : Q := inject_Z (Z.of_nat n).

Inductive ZeroDivisionError : Type := division_by_zero.

(** [x / y], a double division *)
Definition truediv (x y : Q) : outcome ZeroDivisionError Q :=
  if Qeq_bool y 0%Q then Raise division_by_zero
  else Return (round64 (x / y)).

(** [c.isspace()] of one character: the Unicode white space. *)
Definition isspace (c : char) : bool :=
  ((0x09 <=? c) && (c <=? 0x0D) || (0x1C <=? c) && (c <=? 0x20)
   || (c =? 0x85) || (c =? 0xA0) || (c =? 0x1680)
   || (0x2000 <=? c) && (c <=? 0x200A)
   || (c =? 0x2028) || (c =? 0x2029) || (c =? 0x202F)
   || (c =? 0x205F) || (c =? 0x3000))%N.

Fixpoint lstrip (s : str) : str :=
  match s with
  | c :: s' => if isspace c then lstrip s' else s
  | [] => []
  end.

Definition rstrip (s : str) : str := rev (lstrip (rev s)).

(** [s.strip()] *)
Definition strip (s : str) : str := rstrip (lstrip s).

(** ** metrics.py *)

(** The dict returned by [get_stats] when there are requests. *)
Record Stats : Type := {
  total_requests : nat;
  avg_response_time : Q;
  cache_hit_rate : Q;
  avg_memory_usage : Q;
  avg_cpu_usage : Q;
  latest_request : option RequestMetrics
}.

(** The two shapes of the dict returned by [get_stats]. *)
Inductive StatsDict : Type :=
  | message (m : str)
  | stats (s : Stats).

Module MetricsCollector.

Definition __init__ : MetricsCollector :=
  {| requests := []; max_requests := 1000 |}.

(** The last three lines of [record_request]:
    [self.requests.append(metrics)], then [self.requests.pop(0)] when
    [len(self.requests) > self.max_requests]. *)
Definition append (self : MetricsCollector) (metrics : RequestMetrics)
  : MetricsCollector :=
  let appended := requests self ++ [metrics] in
  {| requests :=
       if (max_requests self <? length appended)%nat
       then pop0 appended else appended;
     max_requests := max_requests self |}.

Definition record_request (start_time : Q) (input_text output_text : str)
    (cache_hit : bool) : M exn unit :=
  now <- time ;;
  let response_time := (now - start_time)%Q in
  timestamp <- time ;;
  memory_usage <-
    call virtual_memory
         (fun env n => psutil_virtual_memory_percent env n) ;;
  cpu_usage <- call cpu_percent (fun env n => psutil_cpu_percent env n) ;;
  let metrics :=
    {| timestamp := timestamp;
       response_time := response_time;
       input_length := length input_text;
       output_length := length output_text;
       cache_hit := cache_hit;
       memory_usage := memory_usage;
       cpu_usage := cpu_usage |} in
  self <- get_metrics_collector ;;
  put_metrics_collector (append self metrics).

Definition get_stats (self : MetricsCollector)
  : outcome ZeroDivisionError StatsDict :=
  if negb (truthy (requests self)) then
    Return (message (py "No requests recorded"))
  else
    let recent := slice_from (-100) (requests self) in
    let n := float_of_int (length recent) in
    match truediv (sum (map response_time recent)) n with
    | Raise e => Raise e
    | Return avg_rt =>
    match truediv (float_of_int (length (List.filter cache_hit recent))) n with
    | Raise e => Raise e
    | Return hit_rate =>
    match truediv (sum (map memory_usage recent)) n with
    | Raise e => Raise e
    | Return avg_mem =>
    match truediv (sum (map cpu_usage recent)) n with
    | Raise e => Raise e
    | Return avg_cpu =>
        Return (stats
          {| total_requests := length (requests self);
             avg_response_time := avg_rt;
             cache_hit_rate := hit_rate;
             avg_memory_usage := avg_mem;
             avg_cpu_usage := avg_cpu;
             latest_request :=
               if truthy recent then last recent else None |})
    end end end end.

End MetricsCollector.

(** ** app.py *)

Record GenerateRequest : Type := {
  text : str;
  max_length : Z;
  temperature : Q
}.

Record GenerateResponse : Type := {
  response : str;
  cached : bool;
  response_time' : Q
}.

(** How a handler ends when it does not return: with an exception it
    let through, or with the [HTTPException] it raised. *)
Inductive http_exn : Type :=
  | unhandled (e : exn)
  | HTTPException (status_code : Z) (detail : str).

(** The module-level [cache = Cache()] and
    [metrics_collector = MetricsCollector()], before any request. *)
Definition startup (USE_REDIS : bool) : World :=
  {| cache := Cache.__init__ USE_REDIS;
     metrics_collector := MetricsCollector.__init__;
     calls := [] |}.

(** The post-processing of the decoded output:
    [response[len(request.text):].strip()] *)
Definition remove_input (text output : str) : str :=
  strip (slice_from (Z.of_nat (length text)) output).

(** The body of [if cached_response:] in [generate_text]. *)
Definition respond_cached (request : GenerateRequest) (start_time : Q)
    (cached_response : str) : M http_exn GenerateResponse :=
  now <- propagate unhandled time ;;
  let response_time := (now - start_time)%Q in
  propagate unhandled
    (MetricsCollector.record_request start_time (text request)
       cached_response true) ;;;
  ret {| response := cached_response;
         cached := true;
         response_time' := response_time |}.

(** The [try] statement of [generate_text] with its [except] clause. *)
Definition generate (request : GenerateRequest) (start_time : Q)
  : M http_exn GenerateResponse :=
  try_except
    ((* Tokenize input, generate response, decode response *)
     output <-
       call (model_generate (text request) (max_length request)
               (temperature request))
            (fun env n =>
               engine env n (text request) (max_length request)
                 (temperature request)) ;;
     (* Remove input text from response *)
     let response := remove_input (text request) output in
     (* Cache the response *)
     Cache.set (text request) response ;;;
     now <- time ;;
     let response_time := (now - start_time)%Q in
     MetricsCollector.record_request start_time (text request)
       response false ;;;
     ret {| response := response;
            cached := false;
            response_time' := response_time |})
    (fun e =>
       if isinstance_Exception e then
         raise (HTTPException 500 (py "Generation failed: " ++ exn_str e))
       else raise (unhandled e)).

(** [POST /generate] *)
Definition generate_text (request : GenerateRequest)
  : M http_exn GenerateResponse :=
  start_time <- propagate unhandled time ;;
  (* Check cache first *)
  cached_response <- propagate unhandled (Cache.get (text request)) ;;
  if truthy_opt cached_response then
    respond_cached request start_time (default [] cached_response)
  else
    generate request start_time.

(** [GET /metrics] *)
Definition get_metrics : M ZeroDivisionError StatsDict :=
  self <- get_metrics_collector ;;
  eval (MetricsCollector.get_stats self).

(** The dict returned by [GET /health]. *)
Record Health : Type := {
  status : str;
  model : str;
  health_cache_type : str
}.

Definition health_check : M exn Health :=
  self <- get_cache ;;
  ret {| status := py "healthy";
         model := Config.MODEL_NAME;
         health_cache_type := cache_type self |}.

(** ** Vocabulary of the statements *)

(** The arguments of one [record_request] call. *)
Record record_args : Type := {
  arg_start_time : Q;
  arg_input_text : str;
  arg_output_text : str;
  arg_cache_hit : bool
}.

(** A sequence of [record_request] calls, one after the other; a call
    that raises leaves the world it reached. *)
Fixpoint record_all (ops : list record_args) (env : Env) (w : World) : World :=
  match ops with
  | [] => w
  | op :: ops' =>
      record_all ops' env
        (snd (MetricsCollector.record_request (arg_start_time op)
                (arg_input_text op) (arg_output_text op) (arg_cache_hit op)
                env w))
  end.

(** What identifies the call an observation came from. *)
Definition origin (m : RequestMetrics) : nat * nat * bool :=
  (input_length m, output_length m, cache_hit m).

Definition origin_of_args (op : record_args) : nat * nat * bool :=
  (length (arg_input_text op), length (arg_output_text op), arg_cache_hit op).

(** An environment in which psutil never fails. *)
Definition sampling_succeeds (env : Env) : Prop :=
  forall n,
    (exists x, psutil_virtual_memory_percent env n = Return x)
    /\ (exists x, psutil_cpu_percent env n = Return x).

(** The total of a list as double arithmetic accumulates it: from
    [acc], left to right, each addition rounded to the nearest double. *)
Fixpoint running_total (acc : Q) (l : list Q) : Q :=
  match l with
  | [] => acc
  | x :: l' => running_total (round64 (acc + x)) l'
  end.

(** The mean of a non-empty list as double arithmetic computes it: the
    running total from 0, divided by the number of values. *)
Definition double_mean (l : list Q) : Q :=
  round64 (running_total 0 l / inject_Z (Z.of_nat (length l))).

(** The double nearest to the quotient of two counts. *)
Definition double_ratio (h n : nat) : Q :=
  round64 (inject_Z (Z.of_nat h) / inject_Z (Z.of_nat n)).


Definition double_0_3 : Q := 5404319552844595 # 18014398509481984.


(** Every quotient of counts [h <= n] with [1 <= n <= bound], as a
    double, lies between 0 and 1. *)
Definition ratios_in_unit_interval (bound : nat) : bool :=
  forallb
    (fun n =>
       forallb
         (fun h => Qle_bool 0 (double_ratio h n)
                   && Qle_bool (double_ratio h n) 1)
         (seq 0 (S n)))
    (seq 1 bound).

(** Two texts of 72 letters and digits that differ in one letter and
    have the same MD5 digest (M. Stevens, 2024). *)
Definition collision_a : str :=
  py "TEXTCOLLBYfGiJUETHQ4hAcKSMd5zYpgqf1YRDhkmxHkhPWptrkoyz28wnI9V0aHeAuaKnak".
Definition collision_b : str :=
  py "TEXTCOLLBYfGiJUETHQ4hEcKSMd5zYpgqf1YRDhkmxHkhPWptrkoyz28wnI9V0aHeAuaKnak".

(** An environment for examples: the clock ticks once per call, psutil
    reads 50% and 10%, the redis service holds nothing and accepts
    everything, and the engine answers ["Hello world"]. *)
Definition env_example : Env :=
  {| clock := fun n => inject_Z (Z.of_nat n);
     psutil_virtual_memory_percent := fun _ => Return (50 # 1)%Q;
     psutil_cpu_percent := fun _ => Return (10 # 1)%Q;
     redis_client_get := fun _ _ => Return None;
     redis_client_setex := fun _ _ _ _ => Return tt;
     engine := fun _ _ _ _ => Return (py "Hello world") |}.

Definition request_example : GenerateRequest :=
  {| text := py "Hello";
     max_length := Config.MAX_LENGTH;
     temperature := Config.TEMPERATURE |}.

(** A text that UTF-8 can encode: it holds no surrogate code point.
    On any other [str], [text.encode()] raises UnicodeEncodeError. *)
Definition well_formed (text : str) : Prop :=
  Forall (fun c => is_surrogate c = false) text.

(** An environment in which tokenizer and model never fail. *)
Definition engine_succeeds (env : Env) : Prop :=
  forall n text max_length temperature,
    exists output, engine env n text max_length temperature = Return output.

(** How the [except Exception as e] clause of [generate_text] ends on
    an exception [e] of the [try] block. *)
Definition surfaced (e : exn) : http_exn :=
  if isinstance_Exception e
  then HTTPException 500 (py "Generation failed: " ++ exn_str e)
  else unhandled e.

(** The value [Cache.get] makes of an answer of the redis client. *)
Definition redis_lookup (answer : outcome exn (option bytes)) : option str :=
  match answer with
  | Return (Some b) => if truthy b then decode b else None
  | Return None => None
  | Raise _ => None
  end.

(** An environment in which psutil fails with [e]: on the memory
    reading, or on the CPU reading that follows a memory reading. *)
Definition sampling_fails (env : Env) (e : exn) : Prop :=
  (forall n, psutil_virtual_memory_percent env n = Raise e)
  \/ ((forall n, exists x, psutil_virtual_memory_percent env n = Return x)
      /\ forall n, psutil_cpu_percent env n = Raise e).

(** The calls made between the worlds [w] and [w']. *)
Definition calls_since (w w' : World) : list event :=
  skipn (length (calls w)) (calls w').

(** Between [w] and [w'] the value was stored under the key: it is in
    the dict of the in-process backend, or [setex] was called with it. *)
Definition caches (key value : str) (w w' : World) : Prop :=
  match cache w' with
  | MemoryCache memory_cache => memory_cache !! key = Some value
  | RedisCache => In (redis_setex key Config.CACHE_TTL value) (calls_since w w')
  end.

(** The calls that [record_request] makes. *)
Definition sampling_event (ev : event) : Prop :=
  ev = time_time \/ ev = virtual_memory \/ ev = cpu_percent.

(** The [k]-th observation of the example history. *)
Definition observation_example (k : nat) (hit : bool) : RequestMetrics :=
  {| timestamp := inject_Z (Z.of_nat (100 + k));
     response_time := inject_Z (Z.of_nat k);
     input_length := 5;
     output_length := 5;
     cache_hit := hit;
     memory_usage := (50 # 1)%Q;
     cpu_usage := (10 # 1)%Q |}.

(** Ten observations, the second, fifth and ninth of them cache hits. *)
Definition history_example : MetricsCollector :=
  {| requests :=
       map (fun k => observation_example k
                       ((k =? 2) || (k =? 5) || (k =? 9))%nat)
           (seq 1 10);
     max_requests := 1000 |}.

(** The example environment with the redis service unreachable. *)
Definition env_redis_down : Env :=
  {| clock := clock env_example;
     psutil_virtual_memory_percent := psutil_virtual_memory_percent env_example;
     psutil_cpu_percent := psutil_cpu_percent env_example;
     redis_client_get :=
       fun _ _ => Raise (Raised true (py "Error 111 connecting to localhost:6379. Connection refused."));
     redis_client_setex :=
       fun _ _ _ _ => Raise (Raised true (py "Error 111 connecting to localhost:6379. Connection refused."));
     engine := engine env_example |}.

(** The example environment with psutil unable to read host memory. *)
Definition env_psutil_down : Env :=
  {| clock := clock env_example;
     psutil_virtual_memory_percent :=
       fun _ => Raise (Raised true (py "[Errno 13] Permission denied: '/proc/meminfo'"));
     psutil_cpu_percent := psutil_cpu_percent env_example;
     redis_client_get := redis_client_get env_example;
     redis_client_setex := redis_client_setex env_example;
     engine := engine env_example |}.

(** The example environment with the engine out of memory. *)
Definition env_engine_down : Env :=
  {| clock := clock env_example;
     psutil_virtual_memory_percent := psutil_virtual_memory_percent env_example;
     psutil_cpu_percent := psutil_cpu_percent env_example;
     redis_client_get := redis_client_get env_example;
     redis_client_setex := redis_client_setex env_example;
     engine := fun _ _ _ _ => Raise (Raised true (py "CUDA out of memory")) |}.

(** The example environment with an engine that only echoes the prompt. *)
Definition env_echo : Env :=
  {| clock := clock env_example;
     psutil_virtual_memory_percent := psutil_virtual_memory_percent env_example;
     psutil_cpu_percent := psutil_cpu_percent env_example;
     redis_client_get := redis_client_get env_example;
     redis_client_setex := redis_client_setex env_example;
     engine := fun _ text _ _ => Return text |}.

(** The in-process world after one served request for ["Hello"]. *)
Definition world_hello_cached : World :=
  snd (generate_text request_example env_example (startup false)).

(** The text of the 129 binary digits of [i], lowest first. *)
Definition bit_text (i : Z) : str :=
  map (fun k => if Z.testbit i (Z.of_nat k) then 49%N else 48%N) (seq 0 129).

(** The 128-bit digest of a text that encodes, 0 for the others. *)
Definition digest_of_text (prompt : str) : Z :=
  match encode prompt with
  | Return b => md5_int b
  | Raise _ => 0%Z
  end.

(** A state of MD5 made of four 32-bit words. *)
Definition word_state (st : md5_state) : Prop :=
  let '(a, b, c, d) := st in
  (0 <= a < 2 ^ 32 /\ 0 <= b < 2 ^ 32 /\ 0 <= c < 2 ^ 32 /\ 0 <= d < 2 ^ 32)%Z.

(** 1001 calls of [record_request]; the [k]-th has an input of [k]
    characters. *)
Definition record_args_example : list record_args :=
  map (fun k => {| arg_start_time := 0;
                   arg_input_text := repeat 97%N k;
                   arg_output_text := py "ok";
                   arg_cache_hit := false |})
      (seq 1 1001).

(** A text of Unicode scalar values: every code point is below
    0x110000 and none is a surrogate. *)
Definition unicode_text (s : str) : Prop :=
  Forall (fun c => (c < 0x110000)%N /\ is_surrogate c = false) s.

(** A sequence of [POST /generate] requests served one after the
    other in the same environment, whatever their outcomes. *)
Fixpoint serve_all (rs : list GenerateRequest) (env : Env) (w : World)
  : World :=
  match rs with
  | [] => w
  | request :: rs' => serve_all rs' env (snd (generate_text request env w))
  end.

(** A clock that never goes back. *)
Definition monotone_clock (env : Env) : Prop :=
  forall i j, i <= j -> (clock env i <= clock env j)%Q.

(** A lower-case hexadecimal digit. *)
Definition lowercase_hex (ch : char) : Prop :=
  (48 <= ch <= 57 \/ 97 <= ch <= 102)%N.

(** A call that does not reach the engine or write to the redis
    service. *)
Definition read_only_event (ev : event) : Prop :=
  match ev with
  | model_generate _ _ _ => False
  | redis_setex _ _ _ => False
  | _ => True
  end.

(** The calls of the engine. *)
Definition is_engine_call (ev : event) : bool :=
  match ev with
  | model_generate _ _ _ => true
  | _ => false
  end.

(** * Properties *)

Example encode_ascii : encode (py "Hello") = Return [x48; x65; x6c; x6c; x6f].
Proof. reflexivity. Qed.

Example encode_multibyte :
  encode [0xe9; 0x20ac; 0x10000]%N
  = Return [xc3; xa9; xe2; x82; xac; xf0; x90; x80; x80].
Proof. reflexivity. Qed.

Example decode_multibyte :
  decode [xc3; xa9; xe2; x82; xac; xf0; x90; x80; x80]
  = Some [0xe9; 0x20ac; 0x10000]%N.
Proof. reflexivity. Qed.

Example decode_rejects :
  decode [xc0; x80] = None /\ decode [xed; xa0; x80] = None
  /\ decode [xf4; x90; x80; x80] = None /\ decode [xc2] = None
  /\ decode [xf4; x8f; xbf; xbf] = Some [0x10ffff]%N.
Proof. repeat split; reflexivity. Qed.

Example encode_surrogate_message :
  match encode (py "ab" ++ [0xdfff; 0xd800; 0xdbff]%N ++ py "c") with
  | Raise e => exn_str e
  | Return _ => []
  end
  = py "'utf-8' codec can't encode characters in position 2-4: surrogates not allowed".
Proof. reflexivity. Qed.

Example encode_surrogate_message1 :
  match encode (py "a" ++ [0xdc80]%N ++ py "b") with
  | Raise e => exn_str e
  | Return _ => []
  end
  = py "'utf-8' codec can't encode character '\udc80' in position 1: surrogates not allowed".
Proof. reflexivity. Qed.

Example md5_empty :
  hexdigest (md5_digest []) = py "d41d8cd98f00b204e9800998ecf8427e".
Proof. vm_compute. reflexivity. Qed.

Example md5_fox :
  (match encode (py "The quick brown fox jumps over the lazy dog") with
   | Return b => hexdigest (md5_digest b) | Raise _ => [] end)
  = py "9e107d9d372bb6826bd81d3542a419d6".
Proof. vm_compute. reflexivity. Qed.

(** ** Metrics recorder *)

Lemma slice_from_last {A} (k : nat) (l : list A) :
  0 < k -> slice_from (- Z.of_nat k) l = skipn (length l - k) l.
Proof.
  intros Hk. unfold slice_from.
  destruct (Z.ltb_spec (- Z.of_nat k) 0) as [Hlt | Hge]; [| lia].
  f_equal. lia.
Qed.

Lemma slice_from_drop {A} (k : nat) (l : list A) :
  slice_from (Z.of_nat k) l = skipn k l.
Proof.
  unfold slice_from.
  destruct (Z.ltb_spec (Z.of_nat k) 0) as [Hk | Hk]; [lia |].
  destruct (Nat.le_gt_cases k (length l)) as [Hle | Hgt].
  - f_equal. lia.
  - rewrite Z.min_r by lia. rewrite Nat2Z.id.
    rewrite !skipn_all2; [reflexivity | lia | lia].
Qed.

Lemma length_tl {A} (l : list A) : length (tl l) = (length l - 1)%nat.
Proof. destruct l; simpl; lia. Qed.

Lemma append_length (self : MetricsCollector) (m : RequestMetrics) :
  length (requests self) <= max_requests self ->
  length (requests (MetricsCollector.append self m)) <= max_requests self
  /\ max_requests (MetricsCollector.append self m) = max_requests self.
Proof.
  intros Hle. unfold MetricsCollector.append, pop0. simpl. split; [| reflexivity].
  destruct (Nat.ltb_spec (max_requests self) (length (requests self ++ [m]))) as [H | H].
  - rewrite length_tl. rewrite length_app in *. simpl in *. lia.
  - exact H.
Qed.

Lemma append_not_full (self : MetricsCollector) (m : RequestMetrics) :
  length (requests self) < max_requests self ->
  requests (MetricsCollector.append self m) = requests self ++ [m].
Proof.
  intros Hlt. unfold MetricsCollector.append. simpl.
  destruct (Nat.ltb_spec (max_requests self) (length (requests self ++ [m]))) as [H | H];
    [| reflexivity].
  rewrite length_app in H. simpl in H. lia.
Qed.

Lemma append_full (self : MetricsCollector) (m : RequestMetrics) :
  length (requests self) = max_requests self ->
  requests (MetricsCollector.append self m) = tl (requests self ++ [m]).
Proof.
  intros Heq. unfold MetricsCollector.append, pop0. simpl.
  destruct (Nat.ltb_spec (max_requests self) (length (requests self ++ [m]))) as [H | H];
    [reflexivity |].
  rewrite length_app in H. simpl in H. lia.
Qed.

(** The history after a run of appends is the last [max_requests]
    entries of everything appended. *)
Lemma append_all_skipn (obs : list RequestMetrics) (self : MetricsCollector) :
  length (requests self) <= max_requests self ->
  requests (fold_left MetricsCollector.append obs self)
  = skipn (length (requests self ++ obs) - max_requests self)
          (requests self ++ obs)
  /\ max_requests (fold_left MetricsCollector.append obs self)
     = max_requests self.
Proof.
  revert self. induction obs as [| m obs IH]; intros self Hle.
  - simpl. rewrite app_nil_r.
    replace (length (requests self) - max_requests self)%nat with 0%nat by lia.
    split; reflexivity.
  - simpl fold_left.
    destruct (append_length self m Hle) as [Hlen Hmax].
    destruct (IH (MetricsCollector.append self m)) as [IH1 IH2]; [lia |].
    rewrite IH1, IH2, Hmax. split; [| reflexivity].
    destruct (Nat.eq_dec (length (requests self)) (max_requests self)) as [Hfull | Hnf].
    + rewrite (append_full self m Hfull).
      destruct (requests self) as [| r rs] eqn:Hr.
      * simpl in *. rewrite <- Hfull.
        rewrite !skipn_all2; simpl; [reflexivity | lia | lia].
      * simpl tl. simpl length in *. rewrite <- app_assoc. simpl app.
        rewrite !length_app in *. simpl length in *.
        replace (S (length rs + S (length obs)) - max_requests self)%nat
          with (S (length rs + S (length obs) - max_requests self))%nat by lia.
        reflexivity.
    + rewrite (append_not_full self m) by lia.
      rewrite <- app_assoc. reflexivity.
Qed.

(** What one [record_request] call does: it appends one observation of
    its arguments, or it raises what psutil raised and leaves the
    history as it was.  The cache is not touched. *)
Lemma record_request_cases (start_time : Q) (input_text output_text : str)
    (hit : bool) (env : Env) (w : World) :
  let r := MetricsCollector.record_request start_time input_text output_text
             hit env w in
  cache (snd r) = cache w
  /\ ((exists m,
         fst r = Return tt
         /\ metrics_collector (snd r)
            = MetricsCollector.append (metrics_collector w) m
         /\ origin m = (length input_text, length output_text, hit))
      \/ (exists e,
            fst r = Raise e
            /\ metrics_collector (snd r) = metrics_collector w
            /\ (psutil_virtual_memory_percent env (2 + length (calls w))
                = Raise e
                \/ psutil_cpu_percent env (3 + length (calls w)) = Raise e))).
Proof.
  unfold MetricsCollector.record_request, bind, time, call, logged,
    get_metrics_collector, put_metrics_collector.
  cbn [fst snd calls cache metrics_collector].
  rewrite !length_app. cbn [length].
  replace (length (calls w) + 1 + 1)%nat with (2 + length (calls w))%nat by lia.
  replace (2 + length (calls w) + 1)%nat with (3 + length (calls w))%nat by lia.
  destruct (psutil_virtual_memory_percent env (2 + length (calls w)))
    as [mem | e] eqn:Hmem.
  - destruct (psutil_cpu_percent env (3 + length (calls w)))
      as [cpu | e] eqn:Hcpu; cbn [fst snd cache metrics_collector].
    + split; [reflexivity |]. left. eexists. repeat split; reflexivity.
    + split; [reflexivity |]. right. exists e. auto.
  - cbn [fst snd cache metrics_collector].
    split; [reflexivity |]. right. exists e. auto.
Qed.

Lemma record_request_returns (start_time : Q) (input_text output_text : str)
    (hit : bool) (env : Env) (w : World) :
  sampling_succeeds env ->
  exists m,
    fst (MetricsCollector.record_request start_time input_text output_text
           hit env w) = Return tt
    /\ metrics_collector
         (snd (MetricsCollector.record_request start_time input_text
                 output_text hit env w))
       = MetricsCollector.append (metrics_collector w) m
    /\ origin m = (length input_text, length output_text, hit).
Proof.
  intros Hs.
  destruct (record_request_cases start_time input_text output_text hit env w)
    as [_ [Hok | (e & _ & _ & [He | He])]].
  - exact Hok.
  - destruct (Hs (2 + length (calls w))%nat) as [[x Hx] _]. congruence.
  - destruct (Hs (3 + length (calls w))%nat) as [_ [x Hx]]. congruence.
Qed.

Lemma record_all_bounded (ops : list record_args) (env : Env) (w : World) :
  length (requests (metrics_collector w)) <= max_requests (metrics_collector w) ->
  length (requests (metrics_collector (record_all ops env w)))
  <= max_requests (metrics_collector w)
  /\ max_requests (metrics_collector (record_all ops env w))
     = max_requests (metrics_collector w).
Proof.
  revert w. induction ops as [| op ops IH]; intros w Hle.
  - simpl. split; [exact Hle | reflexivity].
  - simpl record_all.
    destruct (record_request_cases (arg_start_time op) (arg_input_text op)
                (arg_output_text op) (arg_cache_hit op) env w)
      as [_ [(m & _ & Hmc & _) | (e & _ & Hmc & _)]].
    + destruct (append_length (metrics_collector w) m Hle) as [Hl Hm].
      rewrite <- Hmc in Hl, Hm.
      destruct (IH _ ltac:(rewrite Hm; exact Hl)) as [IH1 IH2].
      rewrite <- Hm. split; assumption.
    + destruct (IH (snd (MetricsCollector.record_request (arg_start_time op)
                (arg_input_text op) (arg_output_text op) (arg_cache_hit op) env w)))
        as [IH1 IH2]; rewrite Hmc in *; [exact Hle | split; assumption].
Qed.

(** With psutil never failing, a run of calls appends one observation
    per call, in order. *)
Lemma record_all_appends (ops : list record_args) (env : Env) (w : World) :
  sampling_succeeds env ->
  exists obs,
    metrics_collector (record_all ops env w)
    = fold_left MetricsCollector.append obs (metrics_collector w)
    /\ map origin obs = map origin_of_args ops.
Proof.
  intros Hs. revert w. induction ops as [| op ops IH]; intros w.
  - exists []. split; reflexivity.
  - simpl record_all.
    destruct (record_request_returns (arg_start_time op) (arg_input_text op)
                (arg_output_text op) (arg_cache_hit op) env w Hs)
      as (m & _ & Hmc & Hm).
    destruct (IH (snd (MetricsCollector.record_request (arg_start_time op)
                (arg_input_text op) (arg_output_text op) (arg_cache_hit op) env w)))
      as (obs & Hobs & Horig).
    exists (m :: obs). simpl. rewrite Hobs, Hmc, Hm, Horig.
    split; reflexivity.
Qed.

Lemma map_tl {A B} (f : A -> B) (l : list A) : map f (tl l) = tl (map f l).
Proof. destruct l; reflexivity. Qed.

Lemma startup_metrics (USE_REDIS : bool) :
  metrics_collector (startup USE_REDIS) = MetricsCollector.__init__.
Proof. reflexivity. Qed.

(** C3. The history never holds more than 1000 observations: after
    any sequence of [record_request] calls from startup, failed or not,
    its size is at most 1000; a call on a full history drops exactly
    the oldest entry and keeps the others in order, followed by the new
    one; and 1001 successful calls from the empty history leave the
    1000 observations of the calls 2 to 1001. *)
Theorem history_bounded_fifo :
  (forall (env : Env) (ops : list record_args) (USE_REDIS : bool),
     length (requests (metrics_collector
                         (record_all ops env (startup USE_REDIS)))) <= 1000)
  /\ (forall (env : Env) (w w' : World) (op : record_args),
        max_requests (metrics_collector w) = 1000%nat ->
        length (requests (metrics_collector w)) = 1000%nat ->
        MetricsCollector.record_request (arg_start_time op)
          (arg_input_text op) (arg_output_text op) (arg_cache_hit op) env w
        = (Return tt, w') ->
        exists m,
          origin m = origin_of_args op
          /\ requests (metrics_collector w')
             = tl (requests (metrics_collector w)) ++ [m])
  /\ (forall (env : Env) (ops : list record_args) (USE_REDIS : bool),
        sampling_succeeds env ->
        length ops = 1001%nat ->
        let history :=
          requests (metrics_collector
                      (record_all ops env (startup USE_REDIS))) in
        length history = 1000%nat
        /\ map origin history = map origin_of_args (tl ops)).
Proof.
  split; [| split].
  - intros env ops b.
    destruct (record_all_bounded ops env (startup b)) as [H _].
    + rewrite startup_metrics. cbn [requests MetricsCollector.__init__ length]. lia.
    + exact H.
  - intros env w w' op Hmax Hfull Hrun.
    destruct (record_request_cases (arg_start_time op) (arg_input_text op)
                (arg_output_text op) (arg_cache_hit op) env w)
      as [_ [(m & _ & Hmc & Hm) | (e & He & _)]];
      rewrite Hrun in *; cbn [fst snd] in *; [| discriminate].
    exists m. split; [exact Hm |].
    rewrite Hmc, append_full by congruence.
    destruct (requests (metrics_collector w)); [discriminate | reflexivity].
  - intros env ops b Hs Hlen history. subst history.
    destruct (record_all_appends ops env (startup b) Hs) as (obs & Hobs & Horig).
    assert (Hlobs : length obs = 1001%nat).
    { rewrite <- (length_map origin), Horig, length_map. exact Hlen. }
    rewrite Hobs, startup_metrics.
    destruct (append_all_skipn obs MetricsCollector.__init__) as [Hreq _].
    { cbn [requests MetricsCollector.__init__ length]. lia. }
    rewrite Hreq. cbn [requests max_requests MetricsCollector.__init__ app].
    replace (length obs - 1000)%nat with 1%nat by lia.
    assert (Hsk : skipn 1 obs = tl obs) by (destruct obs; reflexivity).
    rewrite Hsk, length_tl, Hlobs, map_tl, Horig, map_tl.
    split; [lia | reflexivity].
Qed.

Lemma history_bounded_fifo_witness :
  sampling_succeeds env_example
  /\ length record_args_example = 1001%nat
  /\ length (requests (metrics_collector
                         (record_all record_args_example env_example
                            (startup false)))) = 1000%nat
  /\ map origin
       (requests (metrics_collector
                    (record_all record_args_example env_example
                       (startup false))))
     = map origin_of_args (tl record_args_example).
Proof.
  assert (Hs : sampling_succeeds env_example).
  { intros n. split; eexists; reflexivity. }
  split; [exact Hs |]. split; [reflexivity |].
  apply (proj2 (proj2 history_bounded_fifo) env_example record_args_example
           false Hs).
  reflexivity.
Defined.

(** 1001 recorded requests: the history holds the last 1000 of them. *)
Example history_after_1001_requests :
  let history :=
    requests (metrics_collector
                (record_all record_args_example env_example (startup false))) in
  length history = 1000%nat
  /\ input_length <$> head history = Some 2%nat
  /\ input_length <$> last history = Some 1001%nat.
Proof. vm_compute. repeat split. Qed.

(** ** Stats aggregator *)

Lemma truediv_float_of_int (x : Q) (n : nat) :
  n <> 0%nat ->
  truediv x (float_of_int n) = Return (round64 (x / float_of_int n)).
Proof.
  intros Hn. unfold truediv.
  destruct (Qeq_bool (float_of_int n) 0) eqn:E; [| reflexivity].
  apply Qeq_bool_eq in E. unfold float_of_int, Qeq in E. simpl in E. lia.
Qed.

Lemma truthy_nonempty {A} (l : list A) : l <> [] -> truthy l = true.
Proof. destruct l; [congruence | reflexivity]. Qed.

Lemma last_skipn {A} (k : nat) (l : list A) :
  skipn k l <> [] -> last (skipn k l) = last l.
Proof.
  intros Hne. rewrite <- (firstn_skipn k l) at 2.
  rewrite last_app. destruct (last (skipn k l)) eqn:El; [reflexivity |].
  apply last_None in El. contradiction.
Qed.

(** [sum] is the running total from 0. *)
Lemma sum_running_total (l : list Q) : sum l = running_total 0 l.
Proof.
  unfold sum. generalize 0%Q as acc. induction l as [| x l IH]; intros acc.
  - reflexivity.
  - simpl. apply IH.
Qed.

Lemma get_stats_nonempty (self : MetricsCollector) :
  requests self <> [] ->
  let recent := skipn (length (requests self) - 100) (requests self) in
  MetricsCollector.get_stats self
  = Return (stats
      {| total_requests := length (requests self);
         avg_response_time := double_mean (map response_time recent);
         cache_hit_rate :=
           double_ratio (length (List.filter cache_hit recent))
             (length recent);
         avg_memory_usage := double_mean (map memory_usage recent);
         avg_cpu_usage := double_mean (map cpu_usage recent);
         latest_request := last (requests self) |}).
Proof.
  intros Hne recent.
  assert (Hlen : length recent = Nat.min 100 (length (requests self))).
  { subst recent. rewrite length_skipn. lia. }
  assert (Hpos : length recent <> 0%nat).
  { rewrite Hlen. destruct (requests self); [congruence | simpl; lia]. }
  assert (Hrec : recent <> []).
  { intros E. rewrite E in Hpos. simpl in Hpos. congruence. }
  unfold MetricsCollector.get_stats.
  rewrite (truthy_nonempty _ Hne). cbn [negb].
  change (-100)%Z with (- Z.of_nat 100)%Z.
  rewrite slice_from_last by lia. fold recent.
  rewrite !truediv_float_of_int by exact Hpos.
  rewrite (truthy_nonempty _ Hrec).
  unfold double_mean, double_ratio. rewrite !length_map, !sum_running_total.
  subst recent. rewrite last_skipn by exact Hrec.
  reflexivity.
Qed.




(** [round64] against the doubles of CPython: 1/3, 3/10, -22/7, two
    ties above [2 ^ 53], two halves of the smallest subnormal, a
    subnormal, [10 ^ 300], and the sums and quotients behind
    [(0.1 + 0.2 + 0.3) / 3]. *)
Example round64_vectors :
  round64 (1 # 3) = (6004799503160661 # 18014398509481984)%Q /\
  round64 (3 # 10) = (5404319552844595 # 18014398509481984)%Q /\
  round64 (-22 # 7) = (-7077085128725065 # 2251799813685248)%Q /\
  round64 (9007199254740993 # 1) = (9007199254740992 # 1)%Q /\
  round64 (9007199254740995 # 1) = (9007199254740996 # 1)%Q /\
  round64 (1 # 404804506614621236704990693437834614099113299528284236713802716054860679135990693783920767402874248990374155728633623822779617474771586953734026799881477019843034848553132722728933815484186432682479535356945490137124014966849385397236206711298319112681620113024717539104666829230461005064372655017292012526615415482186989568) = (0 # 1)%Q /\
  round64 (3 # 404804506614621236704990693437834614099113299528284236713802716054860679135990693783920767402874248990374155728633623822779617474771586953734026799881477019843034848553132722728933815484186432682479535356945490137124014966849385397236206711298319112681620113024717539104666829230461005064372655017292012526615415482186989568) = (1 # 101201126653655309176247673359458653524778324882071059178450679013715169783997673445980191850718562247593538932158405955694904368692896738433506699970369254960758712138283180682233453871046608170619883839236372534281003741712346349309051677824579778170405028256179384776166707307615251266093163754323003131653853870546747392)%Q /\
  round64 (7 # 37950422495120740941092877509796995071791871830776647191919004630143188668999127542242571944019460842847577099559402233385589138259836276912565012488888470610284517051856192755837545201642478063982456439713639700355376403142129880990894379184217416813901885596067269291062515240355719224784936407871126174370195201455030272) = (37 # 202402253307310618352495346718917307049556649764142118356901358027430339567995346891960383701437124495187077864316811911389808737385793476867013399940738509921517424276566361364466907742093216341239767678472745068562007483424692698618103355649159556340810056512358769552333414615230502532186327508646006263307707741093494784)%Q /\
  round64 (1000000000000000000000000000000000000000000000000000000000000000000000000000000000000000000000000000000000000000000000000000000000000000000000000000000000000000000000000000000000000000000000000000000000000000000000000000000000000000000000000000000000000000000000000000000000000000000000000000000000000 # 1) = (1000000000000000052504760255204420248704468581108159154915854115511802457988908195786371375080447864043704443832883878176942523235360430575644792184786706982848387200926575803737830233794788090059368953234970799945081119038967640880074652742780142494579258788820056842838115669472196386865459400540160 # 1)%Q /\
  round64 (10808639105689191 # 36028797018963968) = (1351079888211149 # 4503599627370496)%Q /\
  round64 (10808639105689191 # 18014398509481984) = (1351079888211149 # 2251799813685248)%Q /\
  round64 (1351079888211149 # 6755399441055744) = (7205759403792795 # 36028797018963968)%Q /\
  round64 (7434823270915899 # 29360128) = (4248470440523371 # 16777216)%Q.
Proof. repeat split; vm_compute; reflexivity. Qed.

Example get_stats_ten_requests_three_hits :
  MetricsCollector.get_stats history_example
  = Return (stats
      {| total_requests := 10;
         avg_response_time := (11 # 2)%Q;
         cache_hit_rate := double_0_3;
         avg_memory_usage := 50%Q;
         avg_cpu_usage := 10%Q;
         latest_request := Some (observation_example 10 false) |}).
Proof. vm_compute. reflexivity. Qed.

(** The window is the last 100 of a longer history, the count is not:
    70 of the last 100 are hits, and the rate is the double 0.7. *)
Example get_stats_long_history :
  match MetricsCollector.get_stats
          {| requests := map (fun k => observation_example k (k <=? 120)%nat)
                             (seq 1 150);
             max_requests := 1000 |} with
  | Return (stats s) => Some (total_requests s, cache_hit_rate s)
  | _ => None
  end = Some (150%nat, (3152519739159347 # 4503599627370496)%Q).
Proof. vm_compute. reflexivity. Qed.

(** X20. The snapshot never raises: for every history [get_stats]
    returns a dict, the only divisor being the size of a non-empty
    window. *)
Lemma get_stats_returns (self : MetricsCollector) :
  exists d, MetricsCollector.get_stats self = Return d.
Proof.
  destruct (requests self) as [| r rs] eqn:Hr.
  - exists (message (py "No requests recorded")).
    unfold MetricsCollector.get_stats. rewrite Hr. reflexivity.
  - eexists. apply get_stats_nonempty. rewrite Hr. discriminate.
Qed.

(** C7. On an empty history the stats operation returns the no-data
    marker {"message": "No requests recorded"}: it returns before any
    division, so it does not raise ZeroDivisionError, and so does the
    handler of [GET /metrics]. *)
Theorem stats_empty_history_marker (self : MetricsCollector) :
  requests self = [] ->
  MetricsCollector.get_stats self
  = Return (message (py "No requests recorded"))
  /\ MetricsCollector.get_stats self <> Raise division_by_zero
  /\ forall (env : Env) (w : World),
       metrics_collector w = self ->
       get_metrics env w = (Return (message (py "No requests recorded")), w).
Proof.
  intros Hempty.
  assert (H : MetricsCollector.get_stats self
              = Return (message (py "No requests recorded"))).
  { unfold MetricsCollector.get_stats. rewrite Hempty. reflexivity. }
  split; [exact H |]. split; [rewrite H; discriminate |].
  intros env w Hw. unfold get_metrics, bind, get_metrics_collector, eval.
  rewrite Hw, H. reflexivity.
Qed.

Lemma stats_empty_history_marker_witness :
  requests MetricsCollector.__init__ = []
  /\ MetricsCollector.get_stats MetricsCollector.__init__
     = Return (message (py "No requests recorded"))
  /\ MetricsCollector.get_stats MetricsCollector.__init__
     <> Raise division_by_zero
  /\ forall (env : Env) (w : World),
       metrics_collector w = MetricsCollector.__init__ ->
       get_metrics env w = (Return (message (py "No requests recorded")), w).
Proof.
  split; [reflexivity |].
  apply (stats_empty_history_marker MetricsCollector.__init__). reflexivity.
Defined.

(** ** Cache store *)

Lemma encode_from_well_formed (s whole : str) (pos : nat) :
  well_formed s -> exists b, encode_from pos whole s = Return b.
Proof.
  intros Hwf. revert pos.
  induction Hwf as [| c s Hc _ IH]; intros pos.
  - exists []. reflexivity.
  - destruct (IH (S pos)) as [b Hb].
    exists (utf8_char c ++ b). simpl. rewrite Hc, Hb. reflexivity.
Qed.

Lemma encode_from_raises (s whole : str) (pos : nat) :
  ~ well_formed s ->
  exists start stop,
    encode_from pos whole s = Raise (UnicodeEncodeError whole start stop).
Proof.
  revert pos. induction s as [| c s IH]; intros pos Hn.
  - exfalso. apply Hn. constructor.
  - simpl. destruct (is_surrogate c) eqn:Hc; [eauto |].
    destruct (IH (S pos)) as (start & stop & H).
    + intros Hwf. apply Hn. constructor; assumption.
    + rewrite H. eauto.
Qed.


Lemma get_key_raises (text : str) :
  ~ well_formed text ->
  exists start stop,
    Cache._get_key text = Raise (UnicodeEncodeError text start stop).
Proof.
  intros Hn. unfold Cache._get_key, encode.
  destruct (encode_from_raises text text 0 Hn) as (start & stop & H).
  rewrite H. eauto.
Qed.

Lemma Cache_get_memory (text key : str) (env : Env) (w : World)
    (memory_cache : gmap str str) :
  cache w = MemoryCache memory_cache ->
  Cache._get_key text = Return key ->
  Cache.get text env w = (Return (memory_cache !! key), w).
Proof.
  intros Hc Hk. unfold Cache.get, bind, eval, get_cache, ret.
  rewrite Hk, Hc. reflexivity.
Qed.

Lemma Cache_set_memory (text key response : str) (env : Env) (w : World)
    (memory_cache : gmap str str) :
  cache w = MemoryCache memory_cache ->
  Cache._get_key text = Return key ->
  Cache.set text response env w
  = (Return tt,
     {| cache := MemoryCache (<[key := response]> memory_cache);
        metrics_collector := metrics_collector w;
        calls := calls w |}).
Proof.
  intros Hc Hk. unfold Cache.set, bind, eval, get_cache, put_cache.
  rewrite Hk, Hc. reflexivity.
Qed.

Lemma Cache_get_redis (text key : str) (env : Env) (w : World) :
  cache w = RedisCache ->
  Cache._get_key text = Return key ->
  Cache.get text env w
  = (Return (redis_lookup (redis_client_get env (length (calls w)) key)),
     logged (redis_get key) w).
Proof.
  intros Hc Hk.
  unfold Cache.get, bind, eval, get_cache, try_except, propagate, call,
    raise, ret.
  rewrite Hk, Hc. unfold try_except.
  destruct (redis_client_get env (length (calls w)) key) as [[b |] | e];
    cbn [redis_lookup truthy_opt]; try reflexivity.
  destruct (truthy b); [| reflexivity].
  cbn [mbind option_bind]. destruct (decode b); reflexivity.
Qed.

Lemma Cache_set_redis (text key response : str) (env : Env) (w : World) :
  cache w = RedisCache ->
  Cache._get_key text = Return key ->
  Cache.set text response env w
  = (Return tt, logged (redis_setex key Config.CACHE_TTL response) w).
Proof.
  intros Hc Hk.
  unfold Cache.set, bind, eval, get_cache, try_except, call, ret.
  rewrite Hk, Hc.
  destruct (redis_client_setex env (length (calls w)) key Config.CACHE_TTL
              response) as [[] | e]; reflexivity.
Qed.

(** [Cache.get] reads: it leaves the cache object and the metrics as
    they are, and it makes at most the one call [redis_client.get]. *)
Lemma Cache_get_reads (text : str) (env : Env) (w : World) :
  let r := Cache.get text env w in
  cache (snd r) = cache w
  /\ metrics_collector (snd r) = metrics_collector w
  /\ (calls (snd r) = calls w
      \/ exists key, cache w = RedisCache
                     /\ Cache._get_key text = Return key
                     /\ calls (snd r) = calls w ++ [redis_get key]).
Proof.
  destruct (Cache._get_key text) as [key | e] eqn:Hk.
  - destruct (cache w) as [| m] eqn:Hc.
    + rewrite (Cache_get_redis text key env w Hc Hk). cbn.
      repeat split; eauto.
    + rewrite (Cache_get_memory text key env w m Hc Hk). cbn. auto.
  - unfold Cache.get, bind, eval. rewrite Hk. cbn. auto.
Qed.




(** ** Request orchestrator *)

Lemma generate_text_unfold (request : GenerateRequest) (env : Env) (w : World) :
  generate_text request env w
  = match Cache.get (text request) env (logged time_time w) with
    | (Return c, w1) =>
        if truthy_opt c
        then respond_cached request (clock env (length (calls w)))
               (default [] c) env w1
        else generate request (clock env (length (calls w))) env w1
    | (Raise e, w1) => (Raise (unhandled e), w1)
    end.
Proof.
  unfold generate_text, bind, propagate, try_except, time, call, raise.
  destruct (Cache.get (text request) env (logged time_time w)) as [[c | e] w1];
    [destruct (truthy_opt c) |]; reflexivity.
Qed.

Lemma respond_cached_unfold (request : GenerateRequest) (start_time : Q)
    (s : str) (env : Env) (w : World) :
  respond_cached request start_time s env w
  = match MetricsCollector.record_request start_time (text request) s true
            env (logged time_time w) with
    | (Return _, w') =>
        (Return {| response := s;
                   cached := true;
                   response_time' :=
                     (clock env (length (calls w)) - start_time)%Q |}, w')
    | (Raise e, w') => (Raise (unhandled e), w')
    end.
Proof.
  unfold respond_cached, bind, propagate, try_except, time, call, raise, ret.
  destruct (MetricsCollector.record_request start_time (text request) s true
              env (logged time_time w)) as [[[] | e] w']; reflexivity.
Qed.

Lemma generate_unfold (request : GenerateRequest) (start_time : Q)
    (env : Env) (w : World) :
  generate request start_time env w
  = let w1 := logged (model_generate (text request) (max_length request)
                        (temperature request)) w in
    match engine env (length (calls w)) (text request) (max_length request)
            (temperature request) with
    | Raise e => (Raise (surfaced e), w1)
    | Return output =>
        let response := remove_input (text request) output in
        match Cache.set (text request) response env w1 with
        | (Raise e, w2) => (Raise (surfaced e), w2)
        | (Return _, w2) =>
            match MetricsCollector.record_request start_time (text request)
                    response false env (logged time_time w2) with
            | (Return _, w3) =>
                (Return {| response := response;
                           cached := false;
                           response_time' :=
                             (clock env (length (calls w2)) - start_time)%Q |},
                 w3)
            | (Raise e, w3) => (Raise (surfaced e), w3)
            end
        end
    end.
Proof.
  unfold generate, bind, try_except, time, call, raise, ret, surfaced.
  cbv zeta.
  destruct (engine env (length (calls w)) (text request) (max_length request)
              (temperature request)) as [output | e].
  - destruct (Cache.set (text request) (remove_input (text request) output) env
                (logged (model_generate (text request) (max_length request)
                           (temperature request)) w)) as [[[] | e] w2].
    + destruct (MetricsCollector.record_request start_time (text request)
                  (remove_input (text request) output) false env
                  (logged time_time w2)) as [[[] | e] w3].
      * reflexivity.
      * destruct (isinstance_Exception e); reflexivity.
    + destruct (isinstance_Exception e); reflexivity.
  - destruct (isinstance_Exception e); reflexivity.
Qed.

Lemma record_request_unfold (start_time : Q) (input_text output_text : str)
    (hit : bool) (env : Env) (w : World) :
  MetricsCollector.record_request start_time input_text output_text hit env w
  = let n := length (calls w) in
    let w2 := logged time_time (logged time_time w) in
    match psutil_virtual_memory_percent env (2 + n) with
    | Raise e => (Raise e, logged virtual_memory w2)
    | Return mem =>
        match psutil_cpu_percent env (3 + n) with
        | Raise e => (Raise e, logged cpu_percent (logged virtual_memory w2))
        | Return cpu =>
            (Return tt,
             {| cache := cache w;
                metrics_collector :=
                  MetricsCollector.append (metrics_collector w)
                    {| timestamp := clock env (1 + n);
                       response_time := (clock env n - start_time)%Q;
                       input_length := length input_text;
                       output_length := length output_text;
                       cache_hit := hit;
                       memory_usage := mem;
                       cpu_usage := cpu |};
                calls :=
                  calls (logged cpu_percent (logged virtual_memory w2)) |})
        end
    end.
Proof.
  unfold MetricsCollector.record_request, bind, time, call, logged,
    get_metrics_collector, put_metrics_collector.
  cbn [fst snd calls cache metrics_collector].
  rewrite !length_app. cbn [length].
  replace (length (calls w) + 1)%nat with (1 + length (calls w))%nat by lia.
  replace (1 + length (calls w) + 1)%nat with (2 + length (calls w))%nat by lia.
  replace (2 + length (calls w) + 1)%nat with (3 + length (calls w))%nat by lia.
  destruct (psutil_virtual_memory_percent env (2 + length (calls w)));
    [| reflexivity].
  destruct (psutil_cpu_percent env (3 + length (calls w))); reflexivity.
Qed.

Lemma record_request_raises (start_time : Q) (input_text output_text : str)
    (hit : bool) (env : Env) (w : World) (e : exn) :
  sampling_fails env e ->
  exists w',
    MetricsCollector.record_request start_time input_text output_text hit
      env w = (Raise e, w')
    /\ metrics_collector w' = metrics_collector w
    /\ cache w' = cache w.
Proof.
  intros Hf. rewrite record_request_unfold. cbv zeta.
  destruct Hf as [Hmem | [Hmem Hcpu]].
  - rewrite Hmem. eexists. repeat split.
  - destruct (Hmem (2 + length (calls w))%nat) as [x Hx].
    rewrite Hx, Hcpu. eexists. repeat split.
Qed.

Ltac sampling_events :=
  cbn [app];
  repeat (constructor;
          [first [left; reflexivity
                 | right; left; reflexivity
                 | right; right; reflexivity] |]);
  constructor.

(** [record_request] only adds calls, all of them to the clock and psutil. *)
Lemma record_request_calls (start_time : Q) (input_text output_text : str)
    (hit : bool) (env : Env) (w : World) :
  exists evs,
    calls (snd (MetricsCollector.record_request start_time input_text
                  output_text hit env w)) = calls w ++ evs
    /\ Forall sampling_event evs.
Proof.
  rewrite record_request_unfold. cbv zeta. unfold logged.
  destruct (psutil_virtual_memory_percent env (2 + length (calls w))).
  - destruct (psutil_cpu_percent env (3 + length (calls w)));
      cbn [snd calls]; rewrite <- !app_assoc; eexists;
      (split; [reflexivity |]); sampling_events.
  - cbn [snd calls]. rewrite <- !app_assoc. eexists.
    split; [reflexivity |]. sampling_events.
Qed.

(** Once the key of a text exists, [Cache.set] returns, whatever the
    backend and whatever the redis client does. *)
Lemma Cache_set_returns (text key response : str) (env : Env) (w : World) :
  Cache._get_key text = Return key ->
  exists w',
    Cache.set text response env w = (Return tt, w')
    /\ metrics_collector w' = metrics_collector w
    /\ caches key response w w'
    /\ exists evs, calls w' = calls w ++ evs
                   /\ Forall (fun ev => ev = redis_setex key Config.CACHE_TTL
                                               response) evs.
Proof.
  intros Hk. destruct (cache w) as [| m] eqn:Hc.
  - rewrite (Cache_set_redis text key response env w Hc Hk).
    eexists. split; [reflexivity |]. split; [reflexivity |]. split.
    + unfold caches, calls_since, logged. cbn [cache calls]. rewrite Hc.
      rewrite skipn_app, skipn_all, Nat.sub_diag. simpl. left. reflexivity.
    + exists [redis_setex key Config.CACHE_TTL response].
      split; [reflexivity | repeat constructor].
  - rewrite (Cache_set_memory text key response env w m Hc Hk).
    eexists. split; [reflexivity |]. split; [reflexivity |]. split.
    + unfold caches. cbn [cache]. apply lookup_insert_eq.
    + exists []. cbn [calls]. rewrite app_nil_r. split; [reflexivity | constructor].
Qed.

Lemma Cache_get_key (text : str) (env : Env) (w w1 : World) (c : option str) :
  Cache.get text env w = (Return c, w1) ->
  exists key, Cache._get_key text = Return key.
Proof.
  destruct (Cache._get_key text) as [key | e] eqn:Hk; [eauto |].
  unfold Cache.get, bind, eval. rewrite Hk. discriminate.
Qed.

Lemma caches_more_calls (key value : str) (w w2 w3 : World) (evs : list event) :
  cache w3 = cache w2 ->
  calls w3 = calls w2 ++ evs ->
  caches key value w w2 -> caches key value w w3.
Proof.
  unfold caches, calls_since. intros Hc Hcalls. rewrite Hc, Hcalls.
  destruct (cache w2); [| auto].
  rewrite skipn_app. intros Hin. apply in_or_app. left. exact Hin.
Qed.

Lemma in_skipn_le {A} (x : A) (n m : nat) (l : list A) :
  n <= m -> In x (skipn m l) -> In x (skipn n l).
Proof.
  intros Hle. replace m with ((m - n) + n)%nat by lia.
  rewrite <- skipn_skipn. generalize (skipn n l) as l'.
  generalize (m - n)%nat as k.
  induction k as [| k IH]; intros [| y l']; simpl; auto.
Qed.

Lemma caches_earlier (key value : str) (w w1 w2 : World) :
  length (calls w) <= length (calls w1) ->
  caches key value w1 w2 -> caches key value w w2.
Proof.
  unfold caches, calls_since. intros Hle.
  destruct (cache w2); [apply in_skipn_le; exact Hle | auto].
Qed.

Lemma caches_record_request (key value : str) (w w2 : World) (start_time : Q)
    (input_text output_text : str) (hit : bool) (env : Env) :
  caches key value w w2 ->
  caches key value w
    (snd (MetricsCollector.record_request start_time input_text output_text
            hit env (logged time_time w2))).
Proof.
  intros H.
  destruct (record_request_cases start_time input_text output_text hit env
              (logged time_time w2)) as [Hc _].
  destruct (record_request_calls start_time input_text output_text hit env
              (logged time_time w2)) as (evs & Hcalls & _).
  eapply (caches_more_calls key value w w2 _ ([time_time] ++ evs)).
  - rewrite Hc. reflexivity.
  - rewrite Hcalls. unfold logged. cbn [calls]. rewrite <- app_assoc. reflexivity.
  - exact H.
Qed.

(** The [try] block once the engine has returned [output]: the
    stripped output is cached, then the request is recorded. *)
Lemma generate_engine_returns (request : GenerateRequest) (start_time : Q)
    (env : Env) (w : World) (key output : str) :
  Cache._get_key (text request) = Return key ->
  engine env (length (calls w)) (text request) (max_length request)
    (temperature request) = Return output ->
  let response := remove_input (text request) output in
  exists w2,
    Cache.set (text request) response env
      (logged (model_generate (text request) (max_length request)
                 (temperature request)) w) = (Return tt, w2)
    /\ metrics_collector w2 = metrics_collector w
    /\ caches key response w w2
    /\ generate request start_time env w
       = match MetricsCollector.record_request start_time (text request)
                 response false env (logged time_time w2) with
         | (Return _, w3) =>
             (Return {| response := response;
                        cached := false;
                        response_time' :=
                          (clock env (length (calls w2)) - start_time)%Q |},
              w3)
         | (Raise e, w3) => (Raise (surfaced e), w3)
         end.
Proof.
  intros Hk He response.
  destruct (Cache_set_returns (text request) key response env
              (logged (model_generate (text request) (max_length request)
                         (temperature request)) w) Hk)
    as (w2 & Hset & Hmc & Hcaches & evs & Hcalls & _).
  exists w2. split; [exact Hset |]. split; [exact Hmc |]. split.
  - eapply caches_earlier; [| exact Hcaches].
    unfold logged. cbn [calls]. rewrite length_app. lia.
  - rewrite generate_unfold. cbv zeta. rewrite He. fold response.
    rewrite Hset. reflexivity.
Qed.

Lemma respond_cached_returns (request : GenerateRequest) (start_time : Q)
    (s : str) (env : Env) (w : World) :
  sampling_succeeds env ->
  exists w',
    respond_cached request start_time s env w
    = (Return {| response := s;
                 cached := true;
                 response_time' :=
                   (clock env (length (calls w)) - start_time)%Q |}, w').
Proof.
  intros Hs. rewrite respond_cached_unfold.
  destruct (record_request_returns start_time (text request) s true env
              (logged time_time w) Hs) as (m & Hr & _).
  destruct (MetricsCollector.record_request start_time (text request) s true
              env (logged time_time w)) as [[[] | e] w'];
    cbn [fst] in Hr; [eauto | discriminate].
Qed.

(** C1. Networked backend: an exception of the redis client during
    [get] is caught and [get] returns None; one during [set] is caught
    and [set] returns, the cache object and the metrics as they were;
    and with engine and psutil working, a request returns a response
    whatever the client does at its calls. *)
Theorem redis_failures_absorbed (env : Env) (w : World) (prompt key : str) :
  cache w = RedisCache ->
  Cache._get_key prompt = Return key ->
  (forall e,
     redis_client_get env (length (calls w)) key = Raise e ->
     Cache.get prompt env w = (Return None, logged (redis_get key) w))
  /\ (forall response e,
        redis_client_setex env (length (calls w)) key Config.CACHE_TTL response
        = Raise e ->
        Cache.set prompt response env w
        = (Return tt, logged (redis_setex key Config.CACHE_TTL response) w))
  /\ (forall request,
        text request = prompt ->
        sampling_succeeds env ->
        engine_succeeds env ->
        exists r w', generate_text request env w = (Return r, w')).
Proof.
  intros Hc Hk. split; [| split].
  - intros e He. rewrite (Cache_get_redis prompt key env w Hc Hk), He. reflexivity.
  - intros response e _. apply (Cache_set_redis prompt key response env w Hc Hk).
  - intros request Ht Hs Heng. subst prompt.
    rewrite generate_text_unfold.
    rewrite (Cache_get_redis (text request) key env
               (logged time_time w) Hc Hk).
    destruct (truthy_opt _).
    + destruct (respond_cached_returns request
                  (clock env (length (calls w))) 
                  (default [] (redis_lookup
                     (redis_client_get env (length (calls (logged time_time w))) key)))
                  env (logged (redis_get key) (logged time_time w)) Hs)
        as [w' H].
      rewrite H. eauto.
    + destruct (Heng (length (calls (logged (redis_get key) (logged time_time w))))
                  (text request) (max_length request)
                  (temperature request)) as [output Ho].
      destruct (generate_engine_returns request (clock env (length (calls w)))
                  env (logged (redis_get key) (logged time_time w)) key output
                  Hk Ho) as (w2 & _ & _ & _ & Hgen).
      rewrite Hgen.
      destruct (record_request_returns (clock env (length (calls w)))
                  (text request)
                  (remove_input (text request) output) false env
                  (logged time_time w2) Hs) as (m & Hr & _).
      destruct (MetricsCollector.record_request _ _ _ _ env
                  (logged time_time w2)) as [[[] | e] w3];
        cbn [fst] in Hr; [eauto | discriminate].
Qed.

(** *** Prefix strip and trim *)

Lemma lstrip_spec (s : str) :
  exists lead,
    s = lead ++ lstrip s
    /\ Forall (fun ch => isspace ch = true) lead
    /\ forall ch, head (lstrip s) = Some ch -> isspace ch = false.
Proof.
  induction s as [| c s (lead & Hs & Hlead & Hhead)].
  - exists []. repeat split; [constructor | discriminate].
  - simpl. destruct (isspace c) eqn:Hc.
    + exists (c :: lead). simpl. rewrite <- Hs.
      repeat split; [constructor; assumption | exact Hhead].
    + exists []. repeat split; [constructor |].
      simpl. intros ch [= <-]. exact Hc.
Qed.

Lemma head_rev {A} (l : list A) : head (rev l) = last l.
Proof.
  induction l as [| x l IH] using rev_ind; [reflexivity |].
  rewrite rev_app_distr, last_snoc. reflexivity.
Qed.

Lemma rstrip_spec (s : str) :
  exists trail,
    s = rstrip s ++ trail
    /\ Forall (fun ch => isspace ch = true) trail
    /\ forall ch, last (rstrip s) = Some ch -> isspace ch = false.
Proof.
  unfold rstrip. destruct (lstrip_spec (rev s)) as (lead & Hs & Hlead & Hhead).
  exists (rev lead). split; [| split].
  - rewrite <- rev_app_distr, <- Hs, rev_involutive. reflexivity.
  - apply List.Forall_rev. exact Hlead.
  - intros ch. rewrite <- head_rev, rev_involutive. apply Hhead.
Qed.

(** [s.strip()] is [s] without the white space around it. *)
Lemma strip_spec (s : str) :
  exists lead trail,
    s = lead ++ strip s ++ trail
    /\ Forall (fun ch => isspace ch = true) lead
    /\ Forall (fun ch => isspace ch = true) trail
    /\ (forall ch, head (strip s) = Some ch -> isspace ch = false)
    /\ (forall ch, last (strip s) = Some ch -> isspace ch = false).
Proof.
  unfold strip.
  destruct (lstrip_spec s) as (lead & Hs & Hlead & Hhead).
  destruct (rstrip_spec (lstrip s)) as (trail & Ht & Htrail & Hlast).
  exists lead, trail. split; [| split; [| split; [| split]]];
    [rewrite <- Ht; exact Hs | exact Hlead | exact Htrail | | exact Hlast].
  intros ch Hch. apply Hhead. rewrite Ht.
  destruct (rstrip (lstrip s)); [discriminate | exact Hch].
Qed.

(** The post-processing removes the first [len(text)] characters of
    the output and the white space around what is left. *)
Lemma remove_input_spec (prompt output : str) :
  exists lead trail,
    output = firstn (length prompt) output ++ lead
               ++ remove_input prompt output ++ trail
    /\ Forall (fun ch => isspace ch = true) lead
    /\ Forall (fun ch => isspace ch = true) trail
    /\ (forall ch, head (remove_input prompt output) = Some ch ->
                   isspace ch = false)
    /\ (forall ch, last (remove_input prompt output) = Some ch ->
                   isspace ch = false).
Proof.
  unfold remove_input. rewrite slice_from_drop.
  destruct (strip_spec (skipn (length prompt) output))
    as (lead & trail & Hs & H).
  exists lead, trail. split; [| exact H].
  rewrite <- Hs. symmetry. apply firstn_skipn.
Qed.

Example remove_input_hello :
  remove_input (py "Hello") (py "Hello world") = py "world".
Proof. reflexivity. Qed.

Example remove_input_unicode_space :
  remove_input (py "Hi") (py "Hi" ++ [0x3000; 0x85]%N ++ py "a b" ++ [0x2028; 9]%N)
  = py "a b".
Proof. reflexivity. Qed.

Example remove_input_not_echoed :
  remove_input (py "Hello") (py "Good day") = py "day".
Proof. reflexivity. Qed.

(** C2. On a cache miss with the engine returning [output], the
    orchestrator caches, and returns with [cached = false], the output
    without its first [len(text)] characters and without the white space
    around the rest. *)
Theorem miss_returns_output_without_prompt (env : Env) (w w1 : World)
    (request : GenerateRequest) (c : option str) (output : str) :
  Cache.get (text request) env (logged time_time w) = (Return c, w1) ->
  truthy_opt c = false ->
  engine env (length (calls w1)) (text request) (max_length request)
    (temperature request) = Return output ->
  let stripped := remove_input (text request) output in
  let result := generate_text request env w in
  (exists key, Cache._get_key (text request) = Return key
               /\ caches key stripped w (snd result))
  /\ (forall r, fst result = Return r ->
                response r = stripped /\ cached r = false)
  /\ (sampling_succeeds env -> exists r, fst result = Return r)
  /\ exists lead trail,
       output = firstn (length (text request)) output ++ lead
                  ++ stripped ++ trail
       /\ Forall (fun ch => isspace ch = true) lead
       /\ Forall (fun ch => isspace ch = true) trail
       /\ (forall ch, head stripped = Some ch -> isspace ch = false)
       /\ (forall ch, last stripped = Some ch -> isspace ch = false).
Proof.
  intros Hget Hmiss Heng stripped result.
  destruct (Cache_get_key _ _ _ _ _ Hget) as [key Hk].
  destruct (Cache_get_reads (text request) env (logged time_time w))
    as (_ & _ & Hcalls). rewrite Hget in Hcalls. cbn [snd] in Hcalls.
  assert (Hle : length (calls w) <= length (calls w1)).
  { destruct Hcalls as [-> | (k' & _ & _ & ->)]; unfold logged; cbn [calls];
      rewrite !length_app; lia. }
  destruct (generate_engine_returns request (clock env (length (calls w)))
              env w1 key output Hk Heng) as (w2 & _ & _ & Hcaches & Hgen).
  fold stripped in Hcaches, Hgen.
  assert (Hres : result
                 = generate request (clock env (length (calls w))) env w1).
  { subst result. rewrite generate_text_unfold, Hget, Hmiss. reflexivity. }
  split; [| split; [| split]].
  - exists key. split; [exact Hk |]. rewrite Hres, Hgen.
    apply (caches_earlier key stripped w w1); [exact Hle |].
    pose proof (caches_record_request key stripped w1 w2
                  (clock env (length (calls w))) (text request) stripped
                  false env Hcaches) as H.
    destruct (MetricsCollector.record_request _ _ _ _ env (logged time_time w2))
      as [[[] | e] w3]; exact H.
  - intros r. rewrite Hres, Hgen.
    destruct (MetricsCollector.record_request _ _ _ _ env (logged time_time w2))
      as [[[] | e] w3]; cbn [fst]; intros [= <-]. split; reflexivity.
  - intros Hs. rewrite Hres, Hgen.
    destruct (record_request_returns (clock env (length (calls w)))
                (text request) stripped false env (logged time_time w2) Hs)
      as (m & Hr & _).
    destruct (MetricsCollector.record_request _ _ _ _ env (logged time_time w2))
      as [[[] | e] w3]; cbn [fst] in *; [eauto | discriminate].
  - apply remove_input_spec.
Qed.

Lemma miss_returns_output_without_prompt_witness :
  Cache.get (text request_example) env_example
    (logged time_time (startup false))
  = (Return None, logged time_time (startup false))
  /\ engine env_example 1 (text request_example) (max_length request_example)
       (temperature request_example) = Return (py "Hello world")
  /\ exists r,
       fst (generate_text request_example env_example (startup false))
       = Return r
       /\ response r = py "world"
       /\ cached r = false.
Proof.
  split; [reflexivity |]. split; [reflexivity |].
  destruct (miss_returns_output_without_prompt env_example (startup false)
              (logged time_time (startup false)) request_example None
              (py "Hello world"))
    as (_ & Hr & Hret & _).
  - reflexivity.
  - reflexivity.
  - reflexivity.
  - destruct Hret as [r Hret].
    + intros n. split; eexists; reflexivity.
    + exists r. split; [exact Hret |]. apply Hr. exact Hret.
Defined.

Lemma redis_failures_absorbed_witness :
  cache (startup true) = RedisCache
  /\ Cache._get_key (py "Hello") = Return (py "8b1a9953c4611296a827abf8c47804d7")
  /\ Cache.get (py "Hello") env_redis_down (startup true)
     = (Return None,
        logged (redis_get (py "8b1a9953c4611296a827abf8c47804d7"))
          (startup true))
  /\ Cache.set (py "Hello") (py "world") env_redis_down (startup true)
     = (Return tt,
        logged (redis_setex (py "8b1a9953c4611296a827abf8c47804d7")
                  Config.CACHE_TTL (py "world")) (startup true))
  /\ exists r w',
       generate_text request_example env_redis_down (startup true)
       = (Return r, w').
Proof.
  split; [reflexivity |]. split; [vm_compute; reflexivity |].
  destruct (redis_failures_absorbed env_redis_down (startup true) (py "Hello")
              (py "8b1a9953c4611296a827abf8c47804d7"))
    as (Hget & Hset & Hreq).
  - reflexivity.
  - vm_compute. reflexivity.
  - split; [| split].
    + eapply Hget. reflexivity.
    + eapply Hset. reflexivity.
    + apply Hreq.
      * reflexivity.
      * intros n. split; eexists; reflexivity.
      * intros n t m temp. eexists. reflexivity.
Defined.

(** With the redis service down a request is served as with an empty cache. *)
Example generate_text_redis_down :
  fst (generate_text request_example env_redis_down (startup true))
  = Return {| response := py "world"; cached := false; response_time' := 4 |}.
Proof. vm_compute. reflexivity. Qed.

(** C5. When the engine raises an error on a cache miss, the request
    ends with HTTP 500 and the detail "Generation failed: <message>";
    the metrics history and the cache are as before, and the only calls
    made are the clock reading, the lookup and the one engine call: no
    observation, no store, no retry. *)
Theorem engine_failure_is_http_500 (env : Env) (w w1 : World)
    (request : GenerateRequest) (c : option str) (e : exn) :
  Cache.get (text request) env (logged time_time w) = (Return c, w1) ->
  truthy_opt c = false ->
  engine env (length (calls w1)) (text request) (max_length request)
    (temperature request) = Raise e ->
  isinstance_Exception e = true ->
  exists w',
    generate_text request env w
    = (Raise (HTTPException 500 (py "Generation failed: " ++ exn_str e)), w')
    /\ metrics_collector w' = metrics_collector w
    /\ cache w' = cache w
    /\ exists lookup,
         calls w' = calls w ++ [time_time] ++ lookup
                      ++ [model_generate (text request) (max_length request)
                            (temperature request)]
         /\ (lookup = [] \/ exists key, lookup = [redis_get key]).
Proof.
  intros Hget Hmiss Heng Hexc.
  destruct (Cache_get_reads (text request) env (logged time_time w))
    as (Hc & Hmc & Hcalls).
  rewrite Hget in Hc, Hmc, Hcalls. cbn [snd] in Hc, Hmc, Hcalls.
  eexists. split; [| split; [| split]].
  - rewrite generate_text_unfold, Hget, Hmiss, generate_unfold. cbv zeta.
    rewrite Heng. unfold surfaced. rewrite Hexc. reflexivity.
  - exact Hmc.
  - exact Hc.
  - destruct Hcalls as [H | (key & _ & _ & H)].
    + exists []. split; [| left; reflexivity].
      unfold logged in *. cbn [calls] in *. rewrite H, <- !app_assoc. reflexivity.
    + exists [redis_get key]. split; [| right; eauto].
      unfold logged in *. cbn [calls] in *. rewrite H, <- !app_assoc. reflexivity.
Qed.

Lemma engine_failure_is_http_500_witness :
  Cache.get (text request_example) env_engine_down
    (logged time_time (startup false))
  = (Return None, logged time_time (startup false))
  /\ engine env_engine_down 1 (text request_example)
       (max_length request_example) (temperature request_example)
     = Raise (Raised true (py "CUDA out of memory"))
  /\ exists w',
       generate_text request_example env_engine_down (startup false)
       = (Raise (HTTPException 500
                   (py "Generation failed: CUDA out of memory")), w')
       /\ metrics_collector w' = metrics_collector (startup false)
       /\ cache w' = cache (startup false).
Proof.
  split; [reflexivity |]. split; [reflexivity |].
  destruct (engine_failure_is_http_500 env_engine_down (startup false)
              (logged time_time (startup false)) request_example None
              (Raised true (py "CUDA out of memory")))
    as (w' & Hrun & Hmc & Hc & _); try reflexivity.
  exists w'. split; [exact Hrun |]. split; [exact Hmc | exact Hc].
Defined.

(** An exception outside [Exception] is not turned into HTTP 500. *)
Lemma engine_interrupt_passes (env : Env) (w w1 : World)
    (request : GenerateRequest) (c : option str) (e : exn) :
  Cache.get (text request) env (logged time_time w) = (Return c, w1) ->
  truthy_opt c = false ->
  engine env (length (calls w1)) (text request) (max_length request)
    (temperature request) = Raise e ->
  isinstance_Exception e = false ->
  fst (generate_text request env w) = Raise (unhandled e).
Proof.
  intros Hget Hmiss Heng Hexc.
  rewrite generate_text_unfold, Hget, Hmiss, generate_unfold. cbv zeta.
  rewrite Heng. unfold surfaced. rewrite Hexc. reflexivity.
Qed.

(** C6, as the code has it. When psutil fails with [e] during
    recording, [record_request] raises [e]: no observation is appended
    and no sentinel stands in for the missing sample.  On the cache-hit
    path [generate_text] lets [e] through; on the cache-miss path, with
    the response already cached, it ends as the [except] clause makes
    it: HTTP 500 "Generation failed: <message>" for an [Exception]. *)
Theorem sampling_failure_propagates (env : Env) (e : exn) :
  sampling_fails env e ->
  (forall start_time input_text output_text hit w,
     exists w',
       MetricsCollector.record_request start_time input_text output_text hit
         env w = (Raise e, w')
       /\ metrics_collector w' = metrics_collector w)
  /\ (forall request w w1 s,
        Cache.get (text request) env (logged time_time w)
        = (Return (Some s), w1) ->
        truthy s = true ->
        exists w',
          generate_text request env w = (Raise (unhandled e), w')
          /\ metrics_collector w' = metrics_collector w)
  /\ (forall request w w1 c output,
        Cache.get (text request) env (logged time_time w) = (Return c, w1) ->
        truthy_opt c = false ->
        engine env (length (calls w1)) (text request) (max_length request)
          (temperature request) = Return output ->
        exists w',
          generate_text request env w = (Raise (surfaced e), w')
          /\ metrics_collector w' = metrics_collector w
          /\ exists key,
               Cache._get_key (text request) = Return key
               /\ caches key (remove_input (text request) output) w w').
Proof.
  intros Hf. split; [| split].
  - intros st i o h w.
    destruct (record_request_raises st i o h env w e Hf) as (w' & H & Hmc & _).
    eauto.
  - intros request w w1 s Hget Hs.
    destruct (Cache_get_reads (text request) env (logged time_time w))
      as (_ & Hmc1 & _). rewrite Hget in Hmc1. cbn [snd] in Hmc1.
    destruct (record_request_raises (clock env (length (calls w)))
                (text request) s true env (logged time_time w1) e Hf)
      as (w' & H & Hmc & _).
    exists w'. split.
    + rewrite generate_text_unfold, Hget. cbn [truthy_opt]. rewrite Hs.
      change (default [] (Some s)) with s.
      rewrite respond_cached_unfold, H. reflexivity.
    + rewrite Hmc. exact Hmc1.
  - intros request w w1 c output Hget Hmiss Heng.
    destruct (Cache_get_key _ _ _ _ _ Hget) as [key Hk].
    destruct (Cache_get_reads (text request) env (logged time_time w))
      as (_ & Hmc1 & Hcalls).
    rewrite Hget in Hmc1, Hcalls. cbn [snd] in Hmc1, Hcalls.
    assert (Hle : length (calls w) <= length (calls w1)).
    { destruct Hcalls as [-> | (k' & _ & _ & ->)]; unfold logged; cbn [calls];
        rewrite !length_app; lia. }
    destruct (generate_engine_returns request (clock env (length (calls w)))
                env w1 key output Hk Heng) as (w2 & _ & Hmc2 & Hcaches & Hgen).
    destruct (record_request_raises (clock env (length (calls w)))
                (text request) (remove_input (text request) output) false
                env (logged time_time w2) e Hf)
      as (w' & H & Hmc & _).
    exists w'. split; [| split].
    + rewrite generate_text_unfold, Hget, Hmiss, Hgen, H. reflexivity.
    + rewrite Hmc. cbn [logged metrics_collector]. rewrite Hmc2. exact Hmc1.
    + exists key. split; [exact Hk |].
      apply (caches_earlier key _ w w1); [exact Hle |].
      pose proof (caches_record_request key
                    (remove_input (text request) output) w1 w2
                    (clock env (length (calls w))) (text request)
                    (remove_input (text request) output) false env Hcaches)
        as Hc.
      rewrite H in Hc. exact Hc.
Qed.

Lemma sampling_failure_propagates_witness :
  sampling_fails env_psutil_down
    (Raised true (py "[Errno 13] Permission denied: '/proc/meminfo'"))
  /\ exists w',
       MetricsCollector.record_request 0 (py "Hello") (py "world") true
         env_psutil_down (startup false)
       = (Raise (Raised true
                   (py "[Errno 13] Permission denied: '/proc/meminfo'")), w')
       /\ metrics_collector w' = metrics_collector (startup false).
Proof.
  assert (H : sampling_fails env_psutil_down
                (Raised true
                   (py "[Errno 13] Permission denied: '/proc/meminfo'"))).
  { left. intros n. reflexivity. }
  split; [exact H |].
  apply (proj1 (sampling_failure_propagates env_psutil_down _ H)).
Defined.

(** C6 fails as stated: with psutil unable to read the host memory,
    the request of the example is not served.  On a miss it ends with
    HTTP 500, on a hit with the exception of psutil, and no observation
    is recorded in either case. *)
Lemma sampling_failure_fails_request :
  (exists mem,
     psutil_virtual_memory_percent env_psutil_down 0 = Raise mem)
  /\ generate_text request_example env_psutil_down (startup false)
     <> generate_text request_example env_example (startup false)
  /\ fst (generate_text request_example env_psutil_down (startup false))
     = Raise (HTTPException 500
                (py "Generation failed: [Errno 13] Permission denied: '/proc/meminfo'"))
  /\ requests (metrics_collector
                 (snd (generate_text request_example env_psutil_down
                         (startup false)))) = []
  /\ fst (generate_text request_example env_example world_hello_cached)
     = Return {| response := py "world"; cached := true;
                 response_time' := 1 |}
  /\ fst (generate_text request_example env_psutil_down world_hello_cached)
     = Raise (unhandled
                (Raised true
                   (py "[Errno 13] Permission denied: '/proc/meminfo'")))
  /\ metrics_collector
       (snd (generate_text request_example env_psutil_down world_hello_cached))
     = metrics_collector world_hello_cached.
Proof.
  split; [eexists; reflexivity |].
  split; [discriminate |].
  repeat split; vm_compute; reflexivity.
Qed.

(** *** The miss path *)

Lemma Cache_set_calls (prompt response_text : str) (env : Env) (w : World) :
  exists evs,
    calls (snd (Cache.set prompt response_text env w)) = calls w ++ evs.
Proof.
  destruct (Cache._get_key prompt) as [key | e] eqn:Hk.
  - destruct (Cache_set_returns prompt key response_text env w Hk)
      as (w' & H & _ & _ & evs & Hcalls & _).
    rewrite H. eauto.
  - exists []. unfold Cache.set, bind, eval. rewrite Hk. cbn [snd].
    rewrite app_nil_r. reflexivity.
Qed.

(** The [try] block begins with the call of the engine. *)
Lemma generate_calls (request : GenerateRequest) (start_time : Q)
    (env : Env) (w : World) :
  exists rest,
    calls (snd (generate request start_time env w))
    = calls w ++ [model_generate (text request) (max_length request)
                    (temperature request)] ++ rest.
Proof.
  rewrite generate_unfold. cbv zeta.
  destruct (engine env (length (calls w)) (text request) (max_length request)
              (temperature request)) as [output | e].
  - destruct (Cache_set_calls (text request)
                (remove_input (text request) output) env
                (logged (model_generate (text request) (max_length request)
                           (temperature request)) w)) as [evs Hset].
    destruct (Cache.set (text request) (remove_input (text request) output)
                env _) as [[[] | e] w2]; cbn [snd] in Hset.
    + destruct (record_request_calls start_time (text request)
                  (remove_input (text request) output) false env
                  (logged time_time w2)) as (evs' & Hrec & _).
      destruct (MetricsCollector.record_request _ _ _ _ env
                  (logged time_time w2)) as [[[] | e] w3];
        cbn [snd] in *; rewrite Hrec; unfold logged; cbn [calls];
        rewrite Hset; unfold logged; cbn [calls];
        exists (evs ++ [time_time] ++ evs'); rewrite <- !app_assoc; reflexivity.
    + cbn [snd]. rewrite Hset. unfold logged. cbn [calls].
      exists evs. rewrite <- !app_assoc. reflexivity.
  - exists []. reflexivity.
Qed.

(** What the [try] block returns is never marked as cached. *)
Lemma generate_not_cached (request : GenerateRequest) (start_time : Q)
    (env : Env) (w : World) (r : GenerateResponse) :
  fst (generate request start_time env w) = Return r -> cached r = false.
Proof.
  rewrite generate_unfold. cbv zeta.
  destruct (engine env (length (calls w)) (text request) (max_length request)
              (temperature request)) as [output | e]; [| discriminate].
  destruct (Cache.set (text request) (remove_input (text request) output)
              env _) as [[[] | e] w2]; [| discriminate].
  destruct (MetricsCollector.record_request _ _ _ _ env (logged time_time w2))
    as [[[] | e] w3]; cbn [fst]; [| discriminate].
  intros [= <-]. reflexivity.
Qed.

Lemma generate_returns (request : GenerateRequest) (start_time : Q)
    (env : Env) (w : World) (key : str) :
  Cache._get_key (text request) = Return key ->
  sampling_succeeds env ->
  engine_succeeds env ->
  exists r, fst (generate request start_time env w) = Return r.
Proof.
  intros Hk Hs Heng.
  destruct (Heng (length (calls w)) (text request) (max_length request)
              (temperature request)) as [output Ho].
  destruct (generate_engine_returns request start_time env w key output Hk Ho)
    as (w2 & _ & _ & _ & Hgen).
  rewrite Hgen.
  destruct (record_request_returns start_time (text request)
              (remove_input (text request) output) false env
              (logged time_time w2) Hs) as (m & Hr & _).
  destruct (MetricsCollector.record_request _ _ _ _ env (logged time_time w2))
    as [[[] | e] w3]; cbn [fst] in *; [eauto | discriminate].
Qed.

(** C10. In-process backend: a completion that is the empty string is
    stored under the key of its prompt, and the next request for the
    same prompt, in whatever environment, calls the engine again and
    cannot return [cached = true]: the test [if cached_response:] fails
    on [""] as it does on [None]. *)
Theorem empty_completion_is_never_a_hit (env env' : Env) (w : World)
    (request : GenerateRequest) (memory_cache : gmap str str)
    (key output : str) :
  cache w = MemoryCache memory_cache ->
  Cache._get_key (text request) = Return key ->
  truthy_opt (memory_cache !! key : option str) = false ->
  engine env (S (length (calls w))) (text request) (max_length request)
    (temperature request) = Return output ->
  remove_input (text request) output = [] ->
  let w1 := snd (generate_text request env w) in
  let again := generate_text request env' w1 in
  (exists stored, cache w1 = MemoryCache stored /\ stored !! key = Some [])
  /\ Cache.get (text request) env' (logged time_time w1)
     = (Return (Some []), logged time_time w1)
  /\ (exists rest,
        calls (snd again)
        = calls w1 ++ [time_time;
                       model_generate (text request) (max_length request)
                         (temperature request)] ++ rest)
  /\ (forall r, fst again = Return r -> cached r = false)
  /\ (sampling_succeeds env' -> engine_succeeds env' ->
      exists r, fst again = Return r /\ cached r = false).
Proof.
  intros Hc Hk Hmiss Heng Hempty w1 again.
  assert (Hw1 : cache w1 = MemoryCache (<[key := []]> memory_cache)).
  { subst w1. rewrite generate_text_unfold.
    rewrite (Cache_get_memory (text request) key env (logged time_time w)
               memory_cache Hc Hk).
    cbv beta iota. rewrite Hmiss, generate_unfold. cbv zeta.
    replace (length (calls (logged time_time w))) with (S (length (calls w)))
      by (unfold logged; cbn [calls]; rewrite length_app; simpl; lia).
    rewrite Heng, Hempty.
    erewrite Cache_set_memory; [| exact Hc | exact Hk].
    match goal with
    | |- context [MetricsCollector.record_request ?a ?b ?c ?d env ?x] =>
        destruct (record_request_cases a b c d env x) as [Hcr _];
        destruct (MetricsCollector.record_request a b c d env x)
          as [[[] | e] w3]
    end; exact Hcr. }
  assert (Hget : Cache.get (text request) env' (logged time_time w1)
                 = (Return (Some []), logged time_time w1)).
  { rewrite (Cache_get_memory (text request) key env' (logged time_time w1)
               _ Hw1 Hk), lookup_insert_eq. reflexivity. }
  assert (Hagain : again = generate request (clock env' (length (calls w1)))
                             env' (logged time_time w1)).
  { subst again. rewrite generate_text_unfold, Hget. reflexivity. }
  split; [| split; [| split; [| split]]].
  - eexists. split; [exact Hw1 | apply lookup_insert_eq].
  - exact Hget.
  - destruct (generate_calls request (clock env' (length (calls w1))) env'
                (logged time_time w1)) as [rest Hrest].
    exists rest. rewrite Hagain, Hrest. unfold logged. cbn [calls].
    rewrite <- app_assoc. reflexivity.
  - intros r. rewrite Hagain. apply generate_not_cached.
  - intros Hs He.
    destruct (generate_returns request (clock env' (length (calls w1))) env'
                (logged time_time w1) key Hk Hs He) as [r Hr].
    exists r. rewrite Hagain. split; [exact Hr |].
    apply (generate_not_cached _ _ _ _ _ Hr).
Qed.

Lemma empty_completion_is_never_a_hit_witness :
  cache (startup false) = MemoryCache ∅
  /\ Cache._get_key (text request_example)
     = Return (py "8b1a9953c4611296a827abf8c47804d7")
  /\ remove_input (text request_example) (py "Hello") = []
  /\ exists r,
       fst (generate_text request_example env_example
              (snd (generate_text request_example env_echo (startup false))))
       = Return r
       /\ cached r = false.
Proof.
  split; [reflexivity |]. split; [vm_compute; reflexivity |].
  split; [reflexivity |].
  destruct (empty_completion_is_never_a_hit env_echo env_example
              (startup false) request_example ∅
              (py "8b1a9953c4611296a827abf8c47804d7") (py "Hello"))
    as (_ & _ & _ & _ & H).
  - reflexivity.
  - vm_compute. reflexivity.
  - reflexivity.
  - reflexivity.
  - reflexivity.
  - apply H.
    + intros n. split; eexists; reflexivity.
    + intros n t m temp. eexists. reflexivity.
Defined.

(** The same two requests, run: the echo is stored as [""], and the
    second request asks the engine again. *)
Example empty_completion_run :
  let w1 := snd (generate_text request_example env_echo (startup false)) in
  cache w1
  = MemoryCache {[ py "8b1a9953c4611296a827abf8c47804d7" := [] ]}
  /\ fst (generate_text request_example env_example w1)
     = Return {| response := py "world"; cached := false;
                 response_time' := 2 |}.
Proof. split; vm_compute; reflexivity. Qed.

(** ** Fingerprinter *)

Lemma mask32_range (x : Z) : (0 <= mask32 x < 2 ^ 32)%Z.
Proof. unfold mask32. apply Z.mod_pos_bound. lia. Qed.

Lemma md5_block_word_state (st : md5_state) (M : list Z) :
  word_state (md5_block st M).
Proof.
  unfold md5_block. destruct st as [[[a0 b0] c0] d0].
  destruct (fold_left (md5_step M) (seq 0 64) (a0, b0, c0, d0))
    as [[[a b] c] d].
  unfold word_state. repeat split; apply mask32_range.
Qed.

Lemma md5_blocks_word_state (n : nat) (ws : list Z) (st : md5_state) :
  word_state st -> word_state (md5_blocks n ws st).
Proof.
  revert ws st. induction n as [| n IH]; intros ws st Hst; simpl.
  - exact Hst.
  - apply IH, md5_block_word_state.
Qed.

(** The digest is a 128-bit number. *)
Lemma md5_int_range (msg : bytes) : (0 <= md5_int msg < 2 ^ 128)%Z.
Proof.
  unfold md5_int.
  pose proof (md5_blocks_word_state
                (length (words_of_bytes (md5_pad msg)) / 16)
                (words_of_bytes (md5_pad msg)) md5_init) as H.
  destruct (md5_blocks _ _ md5_init) as [[[a b] c] d].
  unfold word_state in H. 
  assert (Hinit : word_state md5_init) by (unfold word_state, md5_init; simpl; lia).
  specialize (H Hinit). lia.
Qed.

(** No function sends the [n + 1] numbers [0 .. n] to [n] values
    without sending two of them to the same value. *)
Lemma no_injection_into_smaller (n : nat) (f : nat -> Z) :
  (forall i, i <= n -> (0 <= f i < Z.of_nat n)%Z) ->
  ~ (forall i j, i <= n -> j <= n -> f i = f j -> i = j).
Proof.
  intros Hrange Hinj.
  assert (Hnd : NoDup (f <$> seq 0 (S n))).
  { apply NoDup_fmap_2_strong; [| apply NoDup_seq].
    intros i j Hi Hj. apply elem_of_seq in Hi, Hj. apply Hinj; lia. }
  assert (Hsub : f <$> seq 0 (S n) ⊆+ seqZ 0 (Z.of_nat n)).
  { apply NoDup_submseteq; [exact Hnd |].
    intros x Hx. apply list_elem_of_fmap in Hx. destruct Hx as (i & -> & Hi).
    apply elem_of_seq in Hi. apply elem_of_seqZ.
    specialize (Hrange i). lia. }
  apply submseteq_length in Hsub.
  rewrite length_fmap, length_seq, length_seqZ in Hsub. lia.
Qed.

Lemma bit_text_length (i : Z) : length (bit_text i) = 129%nat.
Proof. unfold bit_text. rewrite length_map, length_seq. reflexivity. Qed.

Lemma bit_text_binary (i : Z) :
  Forall (fun ch => ch = 48%N \/ ch = 49%N) (bit_text i).
Proof.
  unfold bit_text. apply List.Forall_map, List.Forall_forall. intros k _.
  destruct (Z.testbit i (Z.of_nat k)); auto.
Qed.

Lemma binary_well_formed (s : str) :
  Forall (fun ch => ch = 48%N \/ ch = 49%N) s -> well_formed s.
Proof.
  unfold well_formed. apply List.Forall_impl.
  intros ch [-> | ->]; reflexivity.
Qed.

Lemma bit_text_inj (i j : Z) :
  (0 <= i < 2 ^ 129)%Z -> (0 <= j < 2 ^ 129)%Z ->
  bit_text i = bit_text j -> i = j.
Proof.
  intros Hi Hj Heq. apply Z.bits_inj'. intros k Hk.
  destruct (Z.lt_ge_cases k 129) as [Hlt | Hge].
  - unfold bit_text in Heq.
    assert (Hin : In (Z.to_nat k) (seq 0 129)) by (apply in_seq; lia).
    pose proof (proj1 List.map_ext_in_iff Heq (Z.to_nat k) Hin) as H.
    cbv beta in H. rewrite Z2Nat.id in H by lia.
    destruct (Z.testbit i k), (Z.testbit j k); congruence.
  - rewrite <- (Z.mod_small i (2 ^ 129)), <- (Z.mod_small j (2 ^ 129)) by lia.
    rewrite !Z.mod_pow2_bits_high by lia. reflexivity.
Qed.

Lemma digest_of_text_range (prompt : str) :
  (0 <= digest_of_text prompt < 2 ^ 128)%Z.
Proof.
  unfold digest_of_text. destruct (encode prompt); [apply md5_int_range | lia].
Qed.

Lemma get_key_digest (prompt : str) :
  well_formed prompt ->
  Cache._get_key prompt
  = Return (hexdigest (le_bytes 16 (digest_of_text prompt))).
Proof.
  intros Hwf. unfold Cache._get_key, digest_of_text, md5_digest, encode.
  destruct (encode_from_well_formed prompt prompt 0 Hwf) as [b Hb].
  rewrite Hb. reflexivity.
Qed.

(** Collisions are a matter of counting: the key has 128 bits, and
    there are more than [2 ^ 128] texts of 129 binary digits, so it is
    not the case that every two distinct ones among them have distinct
    keys. *)
Lemma fingerprint_not_injective :
  ~ (forall T1 T2 : str,
       length T1 = 129%nat -> length T2 = 129%nat ->
       Forall (fun ch => ch = 48%N \/ ch = 49%N) T1 ->
       Forall (fun ch => ch = 48%N \/ ch = 49%N) T2 ->
       T1 <> T2 ->
       Cache._get_key T1 <> Cache._get_key T2).
Proof.
  intros Hclaim.
  assert (Hn : exists n : nat, Z.of_nat n = (2 ^ 128)%Z).
  { exists (Z.to_nat (2 ^ 128)). apply Z2Nat.id. apply Z.pow_nonneg. lia. }
  destruct Hn as [n Hn].
  apply (no_injection_into_smaller n
           (fun i => digest_of_text (bit_text (Z.of_nat i)))).
  - intros i _. rewrite Hn. apply digest_of_text_range.
  - intros i j Hi Hj Heq.
    destruct (Nat.eq_dec i j) as [| Hne]; [assumption | exfalso].
    apply (Hclaim (bit_text (Z.of_nat i)) (bit_text (Z.of_nat j)));
      try apply bit_text_length; try apply bit_text_binary.
    + intros Htext. apply Hne. apply Nat2Z.inj.
      apply bit_text_inj; [| | exact Htext].
      * change (2 ^ 129)%Z with (2 * 2 ^ 128)%Z. lia.
      * change (2 ^ 129)%Z with (2 * 2 ^ 128)%Z. lia.
    + rewrite !get_key_digest by (apply binary_well_formed, bit_text_binary).
      rewrite Heq. reflexivity.
Qed.

Lemma hexdigit_inj (d1 d2 : N) :
  (d1 < 16)%N -> (d2 < 16)%N -> hexdigit d1 = hexdigit d2 -> d1 = d2.
Proof.
  unfold hexdigit. intros H1 H2.
  destruct (N.ltb_spec d1 10), (N.ltb_spec d2 10); lia.
Qed.

Lemma hex_fixed_2 (n : N) :
  hex_fixed 2 n = [hexdigit ((n / 16) mod 16); hexdigit (n mod 16)]%N.
Proof. reflexivity. Qed.

Lemma byte_to_N_inj (b1 b2 : byte) : Byte.to_N b1 = Byte.to_N b2 -> b1 = b2.
Proof.
  intros H. pose proof (Byte.of_to_N b1) as H1.
  rewrite H, Byte.of_to_N in H1. congruence.
Qed.

Lemma hex_fixed_2_inj (b1 b2 : byte) :
  hex_fixed 2 (Byte.to_N b1) = hex_fixed 2 (Byte.to_N b2) -> b1 = b2.
Proof.
  rewrite !hex_fixed_2. intros [= Hhi Hlo].
  pose proof (Byte.to_N_bounded b1). pose proof (Byte.to_N_bounded b2).
  apply hexdigit_inj in Hhi; [| apply N.mod_lt; lia | apply N.mod_lt; lia].
  apply hexdigit_inj in Hlo; [| apply N.mod_lt; lia | apply N.mod_lt; lia].
  apply byte_to_N_inj.
  rewrite (N.div_mod (Byte.to_N b1) 16), (N.div_mod (Byte.to_N b2) 16) by lia.
  rewrite Hlo. f_equal. f_equal.
  rewrite N.mod_small in Hhi by (apply N.Div0.div_lt_upper_bound; lia).
  rewrite N.mod_small in Hhi by (apply N.Div0.div_lt_upper_bound; lia).
  exact Hhi.
Qed.

(** Distinct digests have distinct hexadecimal forms. *)
Lemma hexdigest_inj (d1 d2 : bytes) : hexdigest d1 = hexdigest d2 -> d1 = d2.
Proof.
  unfold hexdigest. revert d2.
  induction d1 as [| b1 d1 IH]; intros [| b2 d2]; cbn [flat_map];
    rewrite ?hex_fixed_2; cbn [app]; try discriminate; [reflexivity |].
  intros [= Hhi Hlo Hrest].
  f_equal; [| apply IH; exact Hrest].
  apply hex_fixed_2_inj. rewrite !hex_fixed_2. congruence.
Qed.

Lemma hexdigest_length (d : bytes) : length (hexdigest d) = (2 * length d)%nat.
Proof.
  unfold hexdigest. induction d as [| b d IH]; [reflexivity |].
  cbn [flat_map]. rewrite length_app, IH, hex_fixed_2. simpl. lia.
Qed.

Lemma le_bytes_length (n : nat) (x : Z) : length (le_bytes n x) = n.
Proof. revert x. induction n as [| n IH]; intros x; simpl; [| rewrite IH]; reflexivity. Qed.

Lemma Return_inj {E A} (a b : A) : @Return E A a = Return b -> a = b.
Proof. intros H. injection H. auto. Qed.

Lemma get_key_returns (prompt key : str) :
  Cache._get_key prompt = Return key ->
  exists b, encode prompt = Return b /\ key = hexdigest (md5_digest b).
Proof.
  unfold Cache._get_key. destruct (encode prompt) as [b | e]; intros H.
  - exists b. split; [reflexivity |]. symmetry. exact (Return_inj _ _ H).
  - discriminate H.
Qed.

(** C8, as the code has it. The key of a text is the MD5 digest of its
    exact UTF-8 bytes, as 32 hexadecimal digits: two texts have the same
    key only if the digests of their bytes coincide, so nothing but a
    collision of MD5 merges two entries; no normalisation is applied,
    and the texts "Hello", "Hello " and "hello" have three keys. *)
Theorem fingerprint_is_digest_of_exact_bytes :
  (forall (prompt : str) (b : bytes),
     encode prompt = Return b ->
     Cache._get_key prompt = Return (hexdigest (md5_digest b)))
  /\ (forall (prompt key : str),
        Cache._get_key prompt = Return key -> length key = 32%nat)
  /\ (forall (T1 T2 key : str),
        Cache._get_key T1 = Return key ->
        Cache._get_key T2 = Return key ->
        exists b1 b2,
          encode T1 = Return b1 /\ encode T2 = Return b2
          /\ md5_digest b1 = md5_digest b2)
  /\ Cache._get_key (py "Hello") <> Cache._get_key (py "Hello ")
  /\ Cache._get_key (py "Hello") <> Cache._get_key (py "hello")
  /\ Cache._get_key (py "Hello ") <> Cache._get_key (py "hello").
Proof.
  split; [| split; [| split; [| split; [| split]]]].
  - intros prompt b Hb. unfold Cache._get_key. rewrite Hb. reflexivity.
  - intros prompt key Hk. destruct (get_key_returns prompt key Hk) as (b & _ & ->).
    rewrite hexdigest_length. unfold md5_digest. rewrite le_bytes_length.
    reflexivity.
  - intros T1 T2 key H1 H2.
    destruct (get_key_returns T1 key H1) as (b1 & Hb1 & Hk1).
    destruct (get_key_returns T2 key H2) as (b2 & Hb2 & Hk2).
    exists b1, b2. split; [exact Hb1 |]. split; [exact Hb2 |].
    apply hexdigest_inj. rewrite <- Hk1, <- Hk2. reflexivity.
  - vm_compute. discriminate.
  - vm_compute. discriminate.
  - vm_compute. discriminate.
Qed.

Lemma fingerprint_is_digest_of_exact_bytes_witness :
  Cache._get_key (py "Hello") = Return (py "8b1a9953c4611296a827abf8c47804d7")
  /\ length (py "8b1a9953c4611296a827abf8c47804d7") = 32%nat.
Proof.
  assert (Hk : Cache._get_key (py "Hello")
               = Return (py "8b1a9953c4611296a827abf8c47804d7")).
  { vm_compute. reflexivity. }
  split; [exact Hk |].
  apply (proj1 (proj2 fingerprint_is_digest_of_exact_bytes) (py "Hello")).
  exact Hk.
Defined.

(** C8 fails as stated: these two texts of 72 letters and digits differ
    in their 22nd character, hence byte-wise, and have the same cache
    key. *)
Lemma fingerprint_collision :
  length collision_a = 72%nat
  /\ length collision_b = 72%nat
  /\ collision_a <> collision_b
  /\ encode collision_a <> encode collision_b
  /\ nth 21 collision_a 0%N = 65%N
  /\ nth 21 collision_b 0%N = 69%N
  /\ Cache._get_key collision_a
     = Return (py "faad49866e9498fc1719f5289e7a0269")
  /\ Cache._get_key collision_b
     = Return (py "faad49866e9498fc1719f5289e7a0269").
Proof.
  split; [reflexivity |]. split; [reflexivity |].
  split; [vm_compute; discriminate |].
  split; [vm_compute; discriminate |].
  split; [reflexivity |]. split; [reflexivity |].
  split; vm_compute; reflexivity.
Qed.

Example get_key_hello :
  Cache._get_key (py "Hello") = Return (py "8b1a9953c4611296a827abf8c47804d7")
  /\ Cache._get_key (py "Hello ")
     = Return (py "d1a7fb5eab1c16cb4f7cf341cf188c3d").
Proof. split; vm_compute; reflexivity. Qed.

Example md5_two_blocks :
  hexdigest (md5_digest (repeat x61 100))
  = py "36a92cc94a9e0fa21f625f8bfb007adf".
Proof. vm_compute. reflexivity. Qed.

(** A text with a lone surrogate has no key: [text.encode()] raises. *)
Example get_key_surrogate :
  Cache._get_key (py "a" ++ [0xdc80]%N ++ py "b")
  = Raise (UnicodeEncodeError (py "a" ++ [0xdc80]%N ++ py "b") 1 2).
Proof. reflexivity. Qed.

(** ** UTF-8 round trip *)

Ltac lia_div := zify; Z.to_euclidean_division_equations; lia.

Lemma to_N_byte_of_N (n : N) : (n < 256)%N -> Byte.to_N (byte_of_N n) = n.
Proof.
  intros Hn. unfold byte_of_N. rewrite N.mod_small by exact Hn.
  destruct (Byte.of_N n) as [b |] eqn:Hb.
  - apply Byte.to_of_N. exact Hb.
  - apply Byte.of_N_None_iff in Hb. lia.
Qed.

Lemma lor_lead (x : N) :
  ((x < 64 -> N.lor 0x80 x = 0x80 + x)
   /\ (x < 32 -> N.lor 0xC0 x = 0xC0 + x)
   /\ (x < 16 -> N.lor 0xE0 x = 0xE0 + x)
   /\ (x < 8 -> N.lor 0xF0 x = 0xF0 + x))%N.
Proof.
  destruct x as [| p]; [repeat split; reflexivity |].
  do 6 (try destruct p as [p | p |]);
    repeat split; intros H; try reflexivity; lia.
Qed.

Lemma low6_mod (b : byte) : low6 b = (Byte.to_N b mod 64)%N.
Proof. unfold low6. change 0x3F%N with (N.ones 6). apply N.land_ones. Qed.

(** Decides the test of the outermost conditional of the goal. *)
Ltac head_if :=
  match goal with
  | |- (if ?b then _ else _) = _ =>
      let E := fresh "E" in
      destruct b eqn:E;
      repeat match type of E with
             | context [(?x =? ?y)%N] => destruct (N.eqb_spec x y)
             end;
      rewrite ?andb_true_iff, ?andb_false_iff, ?N.leb_le, ?N.leb_gt,
        ?N.ltb_lt, ?N.ltb_ge in E;
      try (exfalso; lia_div)
  end.

(** Decoding the bytes of one scalar value gives it back and goes on
    with the rest. *)
Lemma decode_utf8_char (c : char) (rest : bytes) :
  (c < 0x110000)%N -> is_surrogate c = false ->
  decode (utf8_char c ++ rest) = cons c <$> decode rest.
Proof.
  intros Hc Hs. unfold is_surrogate in Hs.
  assert (Hsur : (c < 0xD800 \/ 0xDFFF < c)%N).
  { destruct (N.leb_spec 0xD800 c), (N.leb_spec c 0xDFFF);
      simpl in Hs; try discriminate; lia. }
  clear Hs. unfold utf8_char.
  rewrite !N.shiftr_div_pow2.
  change 0x3F%N with (N.ones 6). rewrite !N.land_ones.
  change (2 ^ 6)%N with 64%N. change (2 ^ 12)%N with 4096%N.
  change (2 ^ 18)%N with 262144%N.
  destruct (N.ltb_spec c 0x80) as [H1 | H1].
  - cbn [app decode]. rewrite to_N_byte_of_N by lia.
    destruct (N.ltb_spec c 0x80); [reflexivity | lia].
  - destruct (N.ltb_spec c 0x800) as [H2 | H2].
    + rewrite (proj1 (lor_lead (c mod 64))) by lia_div.
      rewrite (proj1 (proj2 (lor_lead (c / 64)))) by lia_div.
      cbn [app decode]. unfold in_range, is_cont. rewrite !low6_mod.
      rewrite !to_N_byte_of_N by lia_div.
      change 0x1F%N with (N.ones 5). rewrite !N.land_ones, !N.shiftl_mul_pow2.
      repeat head_if. do 2 f_equal. lia_div.
    + destruct (N.ltb_spec c 0x10000) as [H3 | H3].
      * rewrite (proj1 (lor_lead (c mod 64))) by lia_div.
        rewrite (proj1 (lor_lead ((c / 64) mod 64))) by lia_div.
        rewrite (proj1 (proj2 (proj2 (lor_lead (c / 4096))))) by lia_div.
        cbn [app decode]. unfold in_range, is_cont. rewrite !low6_mod.
        rewrite !to_N_byte_of_N by lia_div.
        change 0x0F%N with (N.ones 4). rewrite !N.land_ones, !N.shiftl_mul_pow2.
        repeat head_if; do 2 f_equal; lia_div.
      * rewrite (proj1 (lor_lead (c mod 64))) by lia_div.
        rewrite (proj1 (lor_lead ((c / 64) mod 64))) by lia_div.
        rewrite (proj1 (lor_lead ((c / 4096) mod 64))) by lia_div.
        rewrite (proj2 (proj2 (proj2 (lor_lead (c / 262144))))) by lia_div.
        cbn [app decode]. unfold in_range, is_cont. rewrite !low6_mod.
        rewrite !to_N_byte_of_N by lia_div.
        change 0x07%N with (N.ones 3). rewrite !N.land_ones, !N.shiftl_mul_pow2.
        repeat head_if; do 2 f_equal; lia_div.
Qed.

Lemma utf8_char_nonempty (c : char) : utf8_char c <> [].
Proof.
  unfold utf8_char.
  destruct (c <? 0x80)%N; [discriminate |].
  destruct (c <? 0x800)%N; [discriminate |].
  destruct (c <? 0x10000)%N; discriminate.
Qed.

Lemma decode_encode_from (s whole : str) (pos : nat) (b rest : bytes) :
  unicode_text s ->
  encode_from pos whole s = Return b ->
  decode (b ++ rest) = app s <$> decode rest.
Proof.
  intros Hs. revert pos b.
  induction Hs as [| c s [Hc Hsur] _ IH]; intros pos b Hb.
  - injection Hb as <-. simpl. destruct (decode rest); reflexivity.
  - simpl in Hb. rewrite Hsur in Hb.
    destruct (encode_from (S pos) whole s) as [b' |] eqn:Hb'; [| discriminate].
    injection Hb as <-. rewrite <- app_assoc.
    rewrite (decode_utf8_char c (b' ++ rest) Hc Hsur), (IH (S pos) b' Hb').
    destruct (decode rest); reflexivity.
Qed.

Lemma unicode_text_well_formed (s : str) : unicode_text s -> well_formed s.
Proof. apply List.Forall_impl. intros c [_ H]. exact H. Qed.

(** [text.encode().decode()] is [text], for every Unicode text. *)
Lemma decode_encode (s : str) :
  unicode_text s ->
  exists b, encode s = Return b /\ decode b = Some s
            /\ (s <> [] -> b <> []).
Proof.
  intros Hs.
  destruct (encode_from_well_formed s s 0 (unicode_text_well_formed s Hs))
    as [b Hb].
  exists b. split; [exact Hb |]. split.
  - pose proof (decode_encode_from s s 0 b [] Hs Hb) as H.
    rewrite app_nil_r in H. rewrite H. simpl. rewrite app_nil_r. reflexivity.
  - intros Hne. unfold encode in Hb. destruct s as [| c s]; [congruence |].
    simpl in Hb. destruct (is_surrogate c); [discriminate |].
    destruct (encode_from 1 (c :: s) s); [| discriminate].
    injection Hb as <-. intros Happ. apply app_eq_nil in Happ.
    destruct Happ as [H _]. exact (utf8_char_nonempty c H).
Qed.

(** X1. Networked backend: when the redis service answers [get] with
    the UTF-8 bytes of a non-empty response, which is what [setex]
    stored, [Cache.get] returns that response. *)
Theorem redis_round_trip (env : Env) (w : World) (prompt key v : str)
    (b : bytes) :
  cache w = RedisCache ->
  Cache._get_key prompt = Return key ->
  unicode_text v ->
  v <> [] ->
  encode v = Return b ->
  redis_client_get env (length (calls w)) key = Return (Some b) ->
  Cache.get prompt env w = (Return (Some v), logged (redis_get key) w).
Proof.
  intros Hc Hk Hv Hne Hb Hget.
  rewrite (Cache_get_redis prompt key env w Hc Hk), Hget.
  destruct (decode_encode v Hv) as (b' & Hb' & Hdec & Hnb).
  assert (b' = b) by congruence. subst b'.
  unfold redis_lookup. rewrite (truthy_nonempty b (Hnb Hne)), Hdec.
  reflexivity.
Qed.

Lemma redis_round_trip_witness :
  Cache.get (py "Hello")
    {| clock := clock env_example;
       psutil_virtual_memory_percent :=
         psutil_virtual_memory_percent env_example;
       psutil_cpu_percent := psutil_cpu_percent env_example;
       redis_client_get := fun _ _ => Return (Some [xc3; xa9; x21]);
       redis_client_setex := redis_client_setex env_example;
       engine := engine env_example |}
    (startup true)
  = (Return (Some [0xe9; 0x21]%N),
     logged (redis_get (py "8b1a9953c4611296a827abf8c47804d7"))
       (startup true)).
Proof.
  apply (redis_round_trip _ (startup true) (py "Hello")
           (py "8b1a9953c4611296a827abf8c47804d7") [0xe9; 0x21]%N
           [xc3; xa9; x21]).
  - reflexivity.
  - vm_compute. reflexivity.
  - repeat constructor.
  - discriminate.
  - reflexivity.
  - reflexivity.
Defined.

(** X2. [text.encode()] merges no two Unicode texts: two texts with
    the same cache key are the same text, or their byte strings differ
    and have the same MD5 digest. *)
Theorem shared_key_is_md5_collision (T1 T2 key : str) :
  unicode_text T1 ->
  unicode_text T2 ->
  Cache._get_key T1 = Return key ->
  Cache._get_key T2 = Return key ->
  T1 = T2
  \/ exists b1 b2,
       encode T1 = Return b1 /\ encode T2 = Return b2
       /\ b1 <> b2 /\ md5_digest b1 = md5_digest b2.
Proof.
  intros H1 H2 Hk1 Hk2.
  destruct (decide (T1 = T2)) as [Heq | Hne]; [left; exact Heq | right].
  destruct (get_key_returns T1 key Hk1) as (b1 & Hb1 & Hd1).
  destruct (get_key_returns T2 key Hk2) as (b2 & Hb2 & Hd2).
  exists b1, b2. split; [exact Hb1 |]. split; [exact Hb2 |]. split.
  - intros <-.
    destruct (decode_encode T1 H1) as (b1' & Hb1' & Hdec1 & _).
    destruct (decode_encode T2 H2) as (b2' & Hb2' & Hdec2 & _).
    apply Hne. congruence.
  - apply hexdigest_inj. rewrite <- Hd1, <- Hd2. reflexivity.
Qed.

Lemma shared_key_is_md5_collision_witness :
  unicode_text collision_a
  /\ unicode_text collision_b
  /\ collision_a <> collision_b
  /\ Cache._get_key collision_a
     = Return (py "faad49866e9498fc1719f5289e7a0269")
  /\ Cache._get_key collision_b
     = Return (py "faad49866e9498fc1719f5289e7a0269")
  /\ exists b1 b2,
       encode collision_a = Return b1 /\ encode collision_b = Return b2
       /\ b1 <> b2 /\ md5_digest b1 = md5_digest b2.
Proof.
  assert (Ha : unicode_text collision_a) by (repeat constructor).
  assert (Hb : unicode_text collision_b) by (repeat constructor).
  assert (Hne : collision_a <> collision_b) by (vm_compute; discriminate).
  assert (Hka : Cache._get_key collision_a
                = Return (py "faad49866e9498fc1719f5289e7a0269"))
    by (vm_compute; reflexivity).
  assert (Hkb : Cache._get_key collision_b
                = Return (py "faad49866e9498fc1719f5289e7a0269"))
    by (vm_compute; reflexivity).
  repeat (split; [assumption |]).
  destruct (shared_key_is_md5_collision collision_a collision_b
              (py "faad49866e9498fc1719f5289e7a0269") Ha Hb Hka Hkb)
    as [Heq | H]; [contradiction | exact H].
Defined.

(** ** More on the request orchestrator *)

Lemma calls_since_app (w w' : World) (evs : list event) :
  calls w' = calls w ++ evs -> calls_since w w' = evs.
Proof.
  intros H. unfold calls_since. rewrite H, skipn_app, skipn_all, Nat.sub_diag.
  reflexivity.
Qed.

Lemma sampling_read_only (evs : list event) :
  Forall sampling_event evs -> Forall read_only_event evs.
Proof.
  apply List.Forall_impl. intros ev [-> | [-> | ->]]; exact I.
Qed.

(** The calls of a lookup: the clock reading of the handler, then at
    most one [redis_client.get]. *)
Lemma lookup_calls (prompt : str) (env : Env) (w w1 : World)
    (c : option str) :
  Cache.get prompt env (logged time_time w) = (Return c, w1) ->
  cache w1 = cache w
  /\ metrics_collector w1 = metrics_collector w
  /\ exists lookup,
       calls w1 = calls w ++ [time_time] ++ lookup
       /\ Forall read_only_event lookup.
Proof.
  intros Hget.
  destruct (Cache_get_reads prompt env (logged time_time w))
    as (Hc & Hmc & Hcalls).
  rewrite Hget in Hc, Hmc, Hcalls. cbn [snd] in Hc, Hmc, Hcalls.
  split; [exact Hc |]. split; [exact Hmc |].
  destruct Hcalls as [H | (key & _ & _ & H)]; rewrite H; unfold logged;
    cbn [calls].
  - exists []. split; [reflexivity | constructor].
  - exists [redis_get key]. rewrite <- app_assoc.
    split; [reflexivity | repeat constructor].
Qed.

(** The body of [if cached_response:]: it touches neither the cache
    nor the engine, and what it returns is the cached response. *)
Lemma respond_cached_spec (request : GenerateRequest) (start_time : Q)
    (s : str) (env : Env) (w : World) :
  let r := respond_cached request start_time s env w in
  cache (snd r) = cache w
  /\ (exists evs, calls (snd r) = calls w ++ [time_time] ++ evs
                  /\ Forall sampling_event evs)
  /\ (forall resp, fst r = Return resp ->
                   response resp = s /\ cached resp = true)
  /\ (sampling_succeeds env -> exists resp, fst r = Return resp).
Proof.
  cbv zeta. rewrite respond_cached_unfold.
  destruct (record_request_cases start_time (text request) s true env
              (logged time_time w)) as [Hc _].
  destruct (record_request_calls start_time (text request) s true env
              (logged time_time w)) as (evs & Hcalls & Hevs).
  split; [| split; [| split]].
  - destruct (MetricsCollector.record_request _ _ _ _ env (logged time_time w))
      as [[[] | e] w']; exact Hc.
  - exists evs. split; [| exact Hevs].
    destruct (MetricsCollector.record_request _ _ _ _ env (logged time_time w))
      as [[[] | e] w']; cbn [snd] in *; rewrite Hcalls; unfold logged;
      cbn [calls]; rewrite <- app_assoc; reflexivity.
  - intros resp.
    destruct (MetricsCollector.record_request _ _ _ _ env (logged time_time w))
      as [[[] | e] w']; cbn [fst]; intros [= <-]. split; reflexivity.
  - intros Hs.
    destruct (record_request_returns start_time (text request) s true env
                (logged time_time w) Hs) as (m & Hr & _).
    destruct (MetricsCollector.record_request _ _ _ _ env (logged time_time w))
      as [[[] | e] w']; cbn [fst] in *; [eauto | discriminate].
Qed.

(** The whole of a request whose lookup finds a non-empty response. *)
Lemma generate_text_hit (request : GenerateRequest) (env : Env)
    (w w1 : World) (s : str) :
  Cache.get (text request) env (logged time_time w) = (Return (Some s), w1) ->
  truthy s = true ->
  let result := generate_text request env w in
  cache (snd result) = cache w
  /\ Forall read_only_event (calls_since w (snd result))
  /\ (forall r, fst result = Return r -> response r = s /\ cached r = true)
  /\ (sampling_succeeds env -> exists r, fst result = Return r).
Proof.
  intros Hget Hs result.
  destruct (lookup_calls _ _ _ _ _ Hget) as (Hc & _ & lookup & Hl & Hro).
  assert (Hres : result
                 = respond_cached request (clock env (length (calls w))) s
                     env w1).
  { subst result. rewrite generate_text_unfold, Hget. cbn [truthy_opt].
    rewrite Hs. reflexivity. }
  destruct (respond_cached_spec request (clock env (length (calls w))) s env w1)
    as (Hc' & (evs & Hcalls & Hevs) & Hr & Hret).
  rewrite Hres. split; [| split; [| split]].
  - rewrite Hc'. exact Hc.
  - rewrite (calls_since_app w _ ([time_time] ++ lookup ++ [time_time] ++ evs)).
    + apply List.Forall_app. split; [repeat constructor |].
      apply List.Forall_app. split; [exact Hro |].
      apply List.Forall_app. split; [repeat constructor |].
      apply sampling_read_only. exact Hevs.
    + rewrite Hcalls, Hl, <- !app_assoc. reflexivity.
  - exact Hr.
  - exact Hret.
Qed.

(** X3. A lookup that finds a non-empty response ends the request
    there: the response is returned with [cached = true], the engine is
    not called and nothing is written to the cache. *)
Theorem hit_returns_cached_response (request : GenerateRequest) (env : Env)
    (w w1 : World) (s : str) :
  Cache.get (text request) env (logged time_time w) = (Return (Some s), w1) ->
  truthy s = true ->
  let result := generate_text request env w in
  cache (snd result) = cache w
  /\ Forall read_only_event (calls_since w (snd result))
  /\ (forall r, fst result = Return r -> response r = s /\ cached r = true)
  /\ (sampling_succeeds env -> exists r, fst result = Return r).
Proof. exact (generate_text_hit request env w w1 s). Qed.

Lemma hit_returns_cached_response_witness :
  Cache.get (text request_example) env_engine_down
    (logged time_time world_hello_cached)
  = (Return (Some (py "world")), logged time_time world_hello_cached)
  /\ exists r,
       fst (generate_text request_example env_engine_down world_hello_cached)
       = Return r
       /\ response r = py "world" /\ cached r = true.
Proof.
  split; [vm_compute; reflexivity |].
  destruct (hit_returns_cached_response request_example env_engine_down
              world_hello_cached (logged time_time world_hello_cached)
              (py "world")) as (_ & _ & Hr & Hret).
  - vm_compute. reflexivity.
  - reflexivity.
  - destruct Hret as [r Hret].
    + intros n. split; eexists; reflexivity.
    + exists r. split; [exact Hret |]. apply Hr. exact Hret.
Defined.




(** X5. A text with a lone surrogate has no key: [Cache.get] and
    [Cache.set] raise UnicodeEncodeError with either backend, and
    [generate_text] lets it through right after reading the clock: it
    is no HTTP 500, the engine is not called and nothing is stored or
    recorded. *)
Theorem unencodable_text_is_not_served (request : GenerateRequest)
    (env : Env) (w : World) :
  ~ well_formed (text request) ->
  exists start stop,
    Cache.get (text request) env w
    = (Raise (UnicodeEncodeError (text request) start stop), w)
    /\ (forall v,
          Cache.set (text request) v env w
          = (Raise (UnicodeEncodeError (text request) start stop), w))
    /\ generate_text request env w
       = (Raise (unhandled (UnicodeEncodeError (text request) start stop)),
          logged time_time w).
Proof.
  intros Hn. destruct (get_key_raises (text request) Hn) as (start & stop & Hk).
  exists start, stop. split; [| split].
  - unfold Cache.get, bind, eval. rewrite Hk. reflexivity.
  - intros v. unfold Cache.set, bind, eval. rewrite Hk. reflexivity.
  - rewrite generate_text_unfold. unfold Cache.get, bind, eval. rewrite Hk.
    reflexivity.
Qed.

Lemma unencodable_text_is_not_served_witness :
  ~ well_formed (py "a" ++ [0xdc80]%N ++ py "b")
  /\ exists start stop,
       generate_text
         {| text := py "a" ++ [0xdc80]%N ++ py "b";
            max_length := 100; temperature := Config.TEMPERATURE |}
         env_example (startup true)
       = (Raise (unhandled
                   (UnicodeEncodeError (py "a" ++ [0xdc80]%N ++ py "b")
                      start stop)),
          logged time_time (startup true)).
Proof.
  assert (Hn : ~ well_formed (py "a" ++ [0xdc80]%N ++ py "b")).
  { intros H. inversion H as [| c s _ H2]. inversion H2 as [| c' s' H3 _].
    discriminate H3. }
  split; [exact Hn |].
  destruct (unencodable_text_is_not_served
              {| text := py "a" ++ [0xdc80]%N ++ py "b";
                 max_length := 100; temperature := Config.TEMPERATURE |}
              env_example (startup true) Hn) as (start & stop & _ & _ & H).
  exists start, stop. exact H.
Defined.

(** X6. Networked backend: an answer of the redis client that is
    None, the empty byte string, or bytes that are no valid UTF-8 reads
    as a miss: [Cache.get] returns None and raises nothing. *)
Theorem redis_unusable_answer_is_a_miss (env : Env) (w : World)
    (prompt key : str) :
  cache w = RedisCache ->
  Cache._get_key prompt = Return key ->
  (redis_client_get env (length (calls w)) key = Return None
   \/ redis_client_get env (length (calls w)) key = Return (Some [])
   \/ exists b, redis_client_get env (length (calls w)) key = Return (Some b)
                /\ decode b = None) ->
  Cache.get prompt env w = (Return None, logged (redis_get key) w).
Proof.
  intros Hc Hk Hans. rewrite (Cache_get_redis prompt key env w Hc Hk).
  destruct Hans as [-> | [-> | (b & -> & Hb)]]; try reflexivity.
  unfold redis_lookup. rewrite Hb. destruct (truthy b); reflexivity.
Qed.

Lemma redis_unusable_answer_is_a_miss_witness :
  decode [xed; xa0; x80] = None
  /\ Cache.get (py "Hello")
       {| clock := clock env_example;
          psutil_virtual_memory_percent :=
            psutil_virtual_memory_percent env_example;
          psutil_cpu_percent := psutil_cpu_percent env_example;
          redis_client_get := fun _ _ => Return (Some [xed; xa0; x80]);
          redis_client_setex := redis_client_setex env_example;
          engine := engine env_example |}
       (startup true)
     = (Return None,
        logged (redis_get (py "8b1a9953c4611296a827abf8c47804d7"))
          (startup true)).
Proof.
  split; [reflexivity |].
  apply (redis_unusable_answer_is_a_miss _ (startup true) (py "Hello")
           (py "8b1a9953c4611296a827abf8c47804d7")).
  - reflexivity.
  - vm_compute. reflexivity.
  - right. right. exists [xed; xa0; x80]. split; reflexivity.
Defined.

(** What the [try] block does to the metrics: one observation of a
    miss when it returns, none when it raises. *)
Lemma generate_metrics (request : GenerateRequest) (start_time : Q)
    (env : Env) (w : World) (key : str) :
  Cache._get_key (text request) = Return key ->
  let result := generate request start_time env w in
  match fst result with
  | Return r =>
      exists m,
        metrics_collector (snd result)
        = MetricsCollector.append (metrics_collector w) m
        /\ origin m = (length (text request), length (response r), cached r)
  | Raise _ => metrics_collector (snd result) = metrics_collector w
  end.
Proof.
  intros Hk. cbv zeta. rewrite generate_unfold. cbv zeta.
  destruct (engine env (length (calls w)) (text request) (max_length request)
              (temperature request)) as [output | e]; [| reflexivity].
  destruct (Cache_set_returns (text request) key
              (remove_input (text request) output) env
              (logged (model_generate (text request) (max_length request)
                         (temperature request)) w) Hk)
    as (w2 & Hset & Hmc2 & _).
  rewrite Hset.
  destruct (record_request_cases start_time (text request)
              (remove_input (text request) output) false env
              (logged time_time w2)) as [_ Hcases].
  destruct (MetricsCollector.record_request _ _ _ _ env (logged time_time w2))
    as [[[] | e] w3]; cbn [fst snd] in *.
  - destruct Hcases as [(m & _ & Hm & Ho) | (e & He & _)]; [| discriminate].
    exists m. split; [| exact Ho]. rewrite Hm. cbn [logged metrics_collector].
    rewrite Hmc2. reflexivity.
  - destruct Hcases as [(m & Hm & _) | (e' & _ & Hm & _)]; [discriminate |].
    rewrite Hm. cbn [logged metrics_collector]. rewrite Hmc2. reflexivity.
Qed.

Lemma respond_cached_metrics (request : GenerateRequest) (start_time : Q)
    (s : str) (env : Env) (w : World) :
  let result := respond_cached request start_time s env w in
  match fst result with
  | Return r =>
      exists m,
        metrics_collector (snd result)
        = MetricsCollector.append (metrics_collector w) m
        /\ origin m = (length (text request), length (response r), cached r)
  | Raise _ => metrics_collector (snd result) = metrics_collector w
  end.
Proof.
  cbv zeta. rewrite respond_cached_unfold.
  destruct (record_request_cases start_time (text request) s true env
              (logged time_time w)) as [_ Hcases].
  destruct (MetricsCollector.record_request _ _ _ _ env (logged time_time w))
    as [[[] | e] w3]; cbn [fst snd] in *.
  - destruct Hcases as [(m & _ & Hm & Ho) | (e & He & _)]; [| discriminate].
    exists m. split; [exact Hm | exact Ho].
  - destruct Hcases as [(m & Hm & _) | (e' & _ & Hm & _)]; [discriminate |].
    exact Hm.
Qed.

Lemma generate_text_metrics (request : GenerateRequest) (env : Env)
    (w : World) :
  let result := generate_text request env w in
  match fst result with
  | Return r =>
      exists m,
        metrics_collector (snd result)
        = MetricsCollector.append (metrics_collector w) m
        /\ origin m = (length (text request), length (response r), cached r)
  | Raise _ => metrics_collector (snd result) = metrics_collector w
  end.
Proof.
  cbv zeta. rewrite generate_text_unfold.
  destruct (Cache.get (text request) env (logged time_time w))
    as [[c | e] w1] eqn:Hget.
  - destruct (lookup_calls _ _ _ _ _ Hget) as (_ & Hmc & _).
    destruct (Cache_get_key _ _ _ _ _ Hget) as [key Hk].
    rewrite <- Hmc. destruct (truthy_opt c).
    + apply respond_cached_metrics.
    + apply (generate_metrics request _ env w1 key Hk).
  - cbn [fst snd].
    destruct (Cache_get_reads (text request) env (logged time_time w))
      as (_ & Hmc & _). rewrite Hget in Hmc. exact Hmc.
Qed.

(** X7. The metrics follow the outcome of a request: a request that
    returns a response has appended exactly one observation, with the
    length of its text, the length of the response and the response's
    [cached] flag; a request that raises has appended none. *)
Theorem metrics_follow_outcome (request : GenerateRequest) (env : Env)
    (w : World) :
  (forall r w',
     generate_text request env w = (Return r, w') ->
     exists m,
       metrics_collector w' = MetricsCollector.append (metrics_collector w) m
       /\ input_length m = length (text request)
       /\ output_length m = length (response r)
       /\ cache_hit m = cached r)
  /\ (forall e w',
        generate_text request env w = (Raise e, w') ->
        metrics_collector w' = metrics_collector w).
Proof.
  pose proof (generate_text_metrics request env w) as H. cbv zeta in H.
  split.
  - intros r w' Hrun. rewrite Hrun in H. cbn [fst snd] in H.
    destruct H as (m & Hm & Ho). exists m. split; [exact Hm |].
    unfold origin in Ho. injection Ho as H1 H2 H3. auto.
  - intros e w' Hrun. rewrite Hrun in H. exact H.
Qed.

(** What a request does to the cache object: nothing with the
    networked backend, at most one insertion under the key of its text
    with the in-process one. *)
Lemma generate_text_cache (request : GenerateRequest) (env : Env) (w : World) :
  cache (snd (generate_text request env w)) = cache w
  \/ exists memory_cache key v,
       cache w = MemoryCache memory_cache
       /\ Cache._get_key (text request) = Return key
       /\ cache (snd (generate_text request env w))
          = MemoryCache (<[key := v]> memory_cache).
Proof.
  rewrite generate_text_unfold.
  destruct (Cache.get (text request) env (logged time_time w))
    as [[c | e] w1] eqn:Hget.
  - destruct (lookup_calls _ _ _ _ _ Hget) as (Hc & _ & _).
    destruct (Cache_get_key _ _ _ _ _ Hget) as [key Hk].
    destruct (truthy_opt c).
    + left. destruct (respond_cached_spec request
                        (clock env (length (calls w))) (default [] c) env w1)
        as (H & _). rewrite H. exact Hc.
    + rewrite generate_unfold. cbv zeta.
      destruct (engine env (length (calls w1)) (text request)
                  (max_length request) (temperature request))
        as [output | e]; [| left; exact Hc].
      destruct (cache w) as [| m] eqn:Hcw.
      * left.
        erewrite Cache_set_redis; [| exact Hc | exact Hk].
        match goal with
        | |- context [MetricsCollector.record_request ?a ?b ?c ?d env ?x] =>
            destruct (record_request_cases a b c d env x) as [Hcr _];
            destruct (MetricsCollector.record_request a b c d env x)
              as [[[] | e] w3]
        end; cbn [snd] in *; rewrite Hcr; exact Hc.
      * right. exists m, key, (remove_input (text request) output).
        split; [reflexivity |]. split; [exact Hk |].
        erewrite Cache_set_memory; [| exact Hc | exact Hk].
        match goal with
        | |- context [MetricsCollector.record_request ?a ?b ?c ?d env ?x] =>
            destruct (record_request_cases a b c d env x) as [Hcr _];
            destruct (MetricsCollector.record_request a b c d env x)
              as [[[] | e] w3]
        end; exact Hcr.
  - left. cbn [snd].
    destruct (Cache_get_reads (text request) env (logged time_time w))
      as (Hc & _). rewrite Hget in Hc. exact Hc.
Qed.

Lemma generate_text_cache_type (request : GenerateRequest) (env : Env)
    (w : World) :
  cache_type (cache (snd (generate_text request env w))) = cache_type (cache w).
Proof.
  destruct (generate_text_cache request env w)
    as [-> | (m & key & v & -> & _ & ->)]; reflexivity.
Qed.

(** X8. The backend chosen at startup stays: after any sequence of
    requests the cache object has the type it was created with, and
    [GET /health] reports it, "redis" or "memory", with status
    "healthy" and the configured model name. *)
Theorem backend_is_fixed (rs : list GenerateRequest) (env : Env)
    (USE_REDIS : bool) :
  let w := serve_all rs env (startup USE_REDIS) in
  cache_type (cache w) = (if USE_REDIS then py "redis" else py "memory")
  /\ health_check env w
     = (Return {| status := py "healthy";
                  model := py "microsoft/DialoGPT-small";
                  health_cache_type :=
                    if USE_REDIS then py "redis" else py "memory" |}, w).
Proof.
  cbv zeta.
  assert (H : forall w0,
             cache_type (cache (serve_all rs env w0)) = cache_type (cache w0)).
  { induction rs as [| request rs IH]; intros w0; [reflexivity |].
    simpl. rewrite IH. apply generate_text_cache_type. }
  assert (Ht : cache_type (cache (serve_all rs env (startup USE_REDIS)))
               = (if USE_REDIS then py "redis" else py "memory")).
  { rewrite H. destruct USE_REDIS; reflexivity. }
  split; [exact Ht |].
  unfold health_check, bind, get_cache, ret. rewrite Ht. reflexivity.
Qed.

(** X9. In-process backend: a request deletes no entry of the cache
    and changes none but the one under the key of its own text. *)
Theorem other_entries_untouched (request : GenerateRequest) (env : Env)
    (w : World) (memory_cache : gmap str str) :
  cache w = MemoryCache memory_cache ->
  exists after,
    cache (snd (generate_text request env w)) = MemoryCache after
    /\ (forall k : str, is_Some (memory_cache !! k) -> is_Some (after !! k))
    /\ (forall k : str,
          Cache._get_key (text request) <> Return k ->
          after !! k = memory_cache !! k).
Proof.
  intros Hc.
  destruct (generate_text_cache request env w)
    as [H | (m & key & v & Hm & Hk & H)].
  - exists memory_cache. rewrite H. split; [exact Hc |]. split; auto.
  - assert (m = memory_cache) by congruence. subst m.
    exists (<[key := v]> memory_cache). split; [exact H |]. split.
    + intros k Hsome. destruct (decide (key = k)) as [-> | Hne].
      * rewrite lookup_insert_eq. eauto.
      * rewrite lookup_insert_ne by exact Hne. exact Hsome.
    + intros k Hnk. apply lookup_insert_ne. intros ->. apply Hnk. exact Hk.
Qed.

Lemma other_entries_untouched_witness :
  cache world_hello_cached
  = MemoryCache {[ py "8b1a9953c4611296a827abf8c47804d7" := py "world" ]}
  /\ exists after,
       cache (snd (generate_text
                     {| text := py "Bye"; max_length := 100;
                        temperature := Config.TEMPERATURE |}
                     env_example world_hello_cached)) = MemoryCache after
       /\ after !! py "8b1a9953c4611296a827abf8c47804d7" = Some (py "world").
Proof.
  assert (Hc : cache world_hello_cached
               = MemoryCache
                   {[ py "8b1a9953c4611296a827abf8c47804d7" := py "world" ]}).
  { vm_compute. reflexivity. }
  split; [exact Hc |].
  destruct (other_entries_untouched
              {| text := py "Bye"; max_length := 100;
                 temperature := Config.TEMPERATURE |}
              env_example world_hello_cached _ Hc) as (after & Ha & _ & Hother).
  exists after. split; [exact Ha |].
  rewrite Hother; [apply lookup_singleton_eq |].
  vm_compute. discriminate.
Defined.

(** X10. The only [HTTPException] of [generate_text] is the one of its
    [except] clause: its status is 500, its detail is "Generation
    failed: " followed by the text of an [Exception], and it is raised
    only after a lookup that found nothing to serve. *)
Theorem http_error_is_generation_failure (request : GenerateRequest)
    (env : Env) (w w' : World) (status : Z) (detail : str) :
  generate_text request env w = (Raise (HTTPException status detail), w') ->
  status = 500%Z
  /\ (exists e, isinstance_Exception e = true
                /\ detail = py "Generation failed: " ++ exn_str e)
  /\ exists c w1,
       Cache.get (text request) env (logged time_time w) = (Return c, w1)
       /\ truthy_opt c = false.
Proof.
  rewrite generate_text_unfold.
  destruct (Cache.get (text request) env (logged time_time w))
    as [[c | e] w1] eqn:Hget; [| discriminate].
  destruct (truthy_opt c) eqn:Hc.
  - rewrite respond_cached_unfold.
    destruct (MetricsCollector.record_request _ _ _ _ env (logged time_time w1))
      as [[[] | e] w3]; discriminate.
  - intros Hrun.
    assert (Hs : exists e, surfaced e = HTTPException status detail).
    { rewrite generate_unfold in Hrun. cbv zeta in Hrun.
      destruct (engine env (length (calls w1)) (text request)
                  (max_length request) (temperature request))
        as [output | e]; [| injection Hrun as H _; eauto].
      destruct (Cache.set (text request) _ env _) as [[[] | e] w2];
        [| injection Hrun as H _; eauto].
      destruct (MetricsCollector.record_request _ _ _ _ env
                  (logged time_time w2)) as [[[] | e] w3];
        [discriminate | injection Hrun as H _; eauto]. }
    destruct Hs as [e He]. unfold surfaced in He.
    destruct (isinstance_Exception e) eqn:Hexc; [| discriminate].
    injection He as <- <-.
    split; [reflexivity |]. split; eauto.
Qed.

Lemma http_error_is_generation_failure_witness :
  generate_text request_example env_engine_down (startup false)
  = (Raise (HTTPException 500 (py "Generation failed: CUDA out of memory")),
     logged (model_generate (text request_example)
               (max_length request_example) (temperature request_example))
       (logged time_time (startup false)))
  /\ 500%Z = 500%Z
  /\ exists e, isinstance_Exception e = true
               /\ py "Generation failed: CUDA out of memory"
                  = py "Generation failed: " ++ exn_str e.
Proof.
  assert (H : generate_text request_example env_engine_down (startup false)
              = (Raise (HTTPException 500
                          (py "Generation failed: CUDA out of memory")),
                 logged (model_generate (text request_example)
                           (max_length request_example)
                           (temperature request_example))
                   (logged time_time (startup false)))).
  { reflexivity. }
  split; [exact H |].
  destruct (http_error_is_generation_failure _ _ _ _ _ _ H) as (H1 & H2 & _).
  split; [exact H1 | exact H2].
Defined.

(** ** More on the metrics *)

Lemma record_all_origins (env : Env) (ops : list record_args)
    (USE_REDIS : bool) :
  sampling_succeeds env ->
  map origin (requests (metrics_collector
                          (record_all ops env (startup USE_REDIS))))
  = map origin_of_args (skipn (length ops - 1000) ops).
Proof.
  intros Hs.
  destruct (record_all_appends ops env (startup USE_REDIS) Hs)
    as (obs & Hobs & Horig).
  assert (Hlen : length obs = length ops).
  { rewrite <- (length_map origin), Horig, length_map. reflexivity. }
  rewrite Hobs, startup_metrics.
  destruct (append_all_skipn obs MetricsCollector.__init__) as [Hreq _].
  { cbn [requests MetricsCollector.__init__ length]. lia. }
  rewrite Hreq. cbn [requests max_requests MetricsCollector.__init__ app].
  rewrite Hlen, <- !skipn_map, Horig. reflexivity.
Qed.

(** X11. With psutil working, the history after any sequence of
    recorded requests is the observations of the last 1000 of them, in
    order. *)
Theorem history_is_last_thousand (env : Env) (ops : list record_args)
    (USE_REDIS : bool) :
  sampling_succeeds env ->
  map origin (requests (metrics_collector
                          (record_all ops env (startup USE_REDIS))))
  = map origin_of_args (skipn (length ops - 1000) ops).
Proof. exact (record_all_origins env ops USE_REDIS). Qed.

Lemma history_is_last_thousand_witness :
  sampling_succeeds env_example
  /\ map origin (requests (metrics_collector
                             (record_all record_args_example env_example
                                (startup false))))
     = map origin_of_args
         (skipn (length record_args_example - 1000) record_args_example).
Proof.
  assert (Hs : sampling_succeeds env_example).
  { intros n. split; eexists; reflexivity. }
  split; [exact Hs |].
  apply (history_is_last_thousand env_example record_args_example false Hs).
Defined.

(** X12. [total_requests] is capped: after [n >= 1] recorded requests
    the snapshot reports [min n 1000], not the number of requests ever
    served, and its latest request is the last one recorded. *)
Theorem total_requests_is_capped (env : Env) (ops : list record_args)
    (USE_REDIS : bool) :
  sampling_succeeds env ->
  ops <> [] ->
  exists s,
    MetricsCollector.get_stats
      (metrics_collector (record_all ops env (startup USE_REDIS)))
    = Return (stats s)
    /\ total_requests s = Nat.min (length ops) 1000
    /\ origin <$> latest_request s = origin_of_args <$> last ops.
Proof.
  intros Hs Hne.
  pose proof (record_all_origins env ops USE_REDIS Hs) as Hh.
  set (self := metrics_collector (record_all ops env (startup USE_REDIS))) in *.
  assert (Hlen : length (requests self) = Nat.min (length ops) 1000).
  { rewrite <- (length_map origin), Hh, length_map, length_skipn. lia. }
  assert (Hself : requests self <> []).
  { intros E. rewrite E in Hlen. simpl in Hlen.
    destruct ops; [congruence | simpl in Hlen; lia]. }
  eexists. split; [apply (get_stats_nonempty self Hself) |].
  cbn [total_requests latest_request]. split; [exact Hlen |].
  assert (Hsk : skipn (length ops - 1000) ops <> []).
  { intros E. apply (f_equal (@length _)) in E. rewrite length_skipn in E.
    simpl in E. destruct ops; [congruence | simpl in E; lia]. }
  rewrite <- (last_skipn (length ops - 1000) ops Hsk).
  rewrite <- !fmap_last. f_equal. exact Hh.
Qed.

Lemma total_requests_is_capped_witness :
  sampling_succeeds env_example
  /\ record_args_example <> []
  /\ exists s,
       MetricsCollector.get_stats
         (metrics_collector
            (record_all record_args_example env_example (startup false)))
       = Return (stats s)
       /\ total_requests s = Nat.min (length record_args_example) 1000
       /\ origin <$> latest_request s
          = origin_of_args <$> last record_args_example.
Proof.
  assert (Hs : sampling_succeeds env_example).
  { intros n. split; eexists; reflexivity. }
  split; [exact Hs |]. split; [discriminate |].
  apply (total_requests_is_capped env_example record_args_example false Hs).
  discriminate.
Defined.

Lemma filter_length_le {A} (f : A -> bool) (l : list A) :
  length (List.filter f l) <= length l.
Proof.
  induction l as [| x l IH]; simpl; [lia |].
  destruct (f x); simpl; lia.
Qed.

Lemma double_ratio_unit (h n : nat) :
  h <= n -> 1 <= n <= 100 -> (0 <= double_ratio h n <= 1)%Q.
Proof.
  intros Hh Hn.
  assert (Hall : ratios_in_unit_interval 100 = true)
    by (vm_compute; reflexivity).
  unfold ratios_in_unit_interval in Hall.
  rewrite List.forallb_forall in Hall.
  specialize (Hall n ltac:(apply in_seq; lia)).
  rewrite List.forallb_forall in Hall.
  specialize (Hall h ltac:(apply in_seq; lia)).
  apply andb_true_iff in Hall. destruct Hall as [H0 H1].
  split; apply Qle_bool_iff; assumption.
Qed.

(** X13. The reported [cache_hit_rate] is a ratio: it lies between 0
    and 1 for every history. *)
Theorem cache_hit_rate_is_a_ratio (self : MetricsCollector) (s : Stats) :
  MetricsCollector.get_stats self = Return (stats s) ->
  (0 <= cache_hit_rate s <= 1)%Q.
Proof.
  intros Hst.
  destruct (requests self) as [| r rs] eqn:Hr.
  - unfold MetricsCollector.get_stats in Hst. rewrite Hr in Hst. discriminate.
  - assert (Hne : requests self <> []) by (rewrite Hr; discriminate).
    rewrite (get_stats_nonempty self Hne) in Hst.
    apply Return_inj in Hst. injection Hst as <-.
    cbn [cache_hit_rate].
    set (recent := skipn (length (requests self) - 100) (requests self)).
    assert (Hlen : 1 <= length recent <= 100).
    { subst recent. rewrite length_skipn, Hr. simpl. lia. }
    apply double_ratio_unit; [apply filter_length_le | exact Hlen].
Qed.

Lemma cache_hit_rate_is_a_ratio_witness :
  exists s,
    MetricsCollector.get_stats history_example = Return (stats s)
    /\ (0 <= cache_hit_rate s <= 1)%Q.
Proof.
  eexists. split; [reflexivity |].
  apply (cache_hit_rate_is_a_ratio history_example). reflexivity.
Defined.

(** X14. The snapshot depends on the history only through its length
    and its last 100 observations. *)
Theorem stats_depend_on_window (a b : MetricsCollector) :
  length (requests a) = length (requests b) ->
  skipn (length (requests a) - 100) (requests a)
  = skipn (length (requests b) - 100) (requests b) ->
  MetricsCollector.get_stats a = MetricsCollector.get_stats b.
Proof.
  intros Hlen Hwin.
  destruct (requests a) as [| x xs] eqn:Ha.
  - destruct (requests b) as [| y ys] eqn:Hb; [| discriminate].
    unfold MetricsCollector.get_stats. rewrite Ha, Hb. reflexivity.
  - assert (Hna : requests a <> []) by (rewrite Ha; discriminate).
    assert (Hnb : requests b <> []).
    { intros E. rewrite E in Hlen. discriminate. }
    rewrite <- Ha in *.
    assert (Hwa : skipn (length (requests a) - 100) (requests a) <> []).
    { intros E. apply (f_equal (@length _)) in E. rewrite length_skipn in E.
      rewrite Ha in E. simpl in E. lia. }
    rewrite (get_stats_nonempty a Hna), (get_stats_nonempty b Hnb).
    cbv zeta.
    rewrite <- (last_skipn (length (requests a) - 100) (requests a) Hwa).
    rewrite <- (last_skipn (length (requests b) - 100) (requests b))
      by (rewrite <- Hwin; exact Hwa).
    rewrite <- Hwin, <- Hlen. reflexivity.
Qed.

Lemma stats_depend_on_window_witness :
  MetricsCollector.get_stats
    {| requests := map (fun k => observation_example k false) (seq 1 150);
       max_requests := 1000 |}
  = MetricsCollector.get_stats
      {| requests := map (fun k => observation_example (Nat.max k 51) false)
                         (seq 1 150);
         max_requests := 1000 |}.
Proof.
  apply stats_depend_on_window; vm_compute; reflexivity.
Defined.

(** ** More on the cache and the post-processing *)

(** X15. The prefix strip is by position. When the engine echoes the
    prompt, the response is what follows it, trimmed; when the output
    is no longer than the prompt, the response is empty and nothing is
    raised. *)
Theorem remove_input_by_position (prompt : str) :
  (forall rest, remove_input prompt (prompt ++ rest) = strip rest)
  /\ (forall output,
        length output <= length prompt -> remove_input prompt output = []).
Proof.
  split.
  - intros rest. unfold remove_input. rewrite slice_from_drop.
    rewrite skipn_app, skipn_all, Nat.sub_diag. reflexivity.
  - intros output Hle. unfold remove_input. rewrite slice_from_drop.
    rewrite skipn_all2 by exact Hle. reflexivity.
Qed.

Lemma remove_input_by_position_witness :
  length (py "Hi") <= length (py "Hello")
  /\ remove_input (py "Hello") (py "Hi") = []
  /\ remove_input (py "Hello") (py "Hello" ++ py "  world ") = py "world".
Proof.
  split; [vm_compute; lia |]. split.
  - apply (proj2 (remove_input_by_position (py "Hello"))). vm_compute. lia.
  - rewrite (proj1 (remove_input_by_position (py "Hello"))). reflexivity.
Defined.

Lemma hexdigit_lowercase (d : N) : (d < 16)%N -> lowercase_hex (hexdigit d).
Proof.
  intros Hd. unfold lowercase_hex, hexdigit.
  destruct (N.ltb_spec d 10); lia.
Qed.

(** X16. A cache key is made of lower-case hexadecimal digits only. *)
Theorem key_is_lowercase_hex (prompt key : str) :
  Cache._get_key prompt = Return key -> Forall lowercase_hex key.
Proof.
  intros Hk. destruct (get_key_returns prompt key Hk) as (b & _ & ->).
  unfold hexdigest. generalize (md5_digest b) as d.
  induction d as [| x d IH]; [constructor |].
  cbn [flat_map]. rewrite hex_fixed_2. cbn [app].
  constructor; [| constructor; [| exact IH]];
    apply hexdigit_lowercase, N.mod_lt; lia.
Qed.

Lemma key_is_lowercase_hex_witness :
  Cache._get_key (py "Hello") = Return (py "8b1a9953c4611296a827abf8c47804d7")
  /\ Forall lowercase_hex (py "8b1a9953c4611296a827abf8c47804d7").
Proof.
  assert (Hk : Cache._get_key (py "Hello")
               = Return (py "8b1a9953c4611296a827abf8c47804d7")).
  { vm_compute. reflexivity. }
  split; [exact Hk |]. apply (key_is_lowercase_hex (py "Hello")). exact Hk.
Defined.

(** X17. In-process backend: entries are addressed by key alone.
    After [set(T1, v)], [get(T2)] returns [v] when the two texts have
    the same key and what the cache held for [T2] before otherwise; a
    second [set] for the same text replaces the first. *)
Theorem memory_cache_addressed_by_key (env : Env) (w : World)
    (memory_cache : gmap str str) (T1 T2 k1 k2 v v' : str) :
  cache w = MemoryCache memory_cache ->
  Cache._get_key T1 = Return k1 ->
  Cache._get_key T2 = Return k2 ->
  exists w1 w2,
    Cache.set T1 v env w = (Return tt, w1)
    /\ Cache.get T2 env w1
       = (Return (if decide (k1 = k2) then Some v else memory_cache !! k2), w1)
    /\ Cache.set T1 v' env w1 = (Return tt, w2)
    /\ Cache.get T1 env w2 = (Return (Some v'), w2).
Proof.
  intros Hc H1 H2.
  eexists. eexists. split; [| split; [| split]].
  - apply (Cache_set_memory T1 k1 v env w memory_cache Hc H1).
  - erewrite Cache_get_memory; [| reflexivity | exact H2].
    rewrite lookup_insert. reflexivity.
  - erewrite Cache_set_memory; [| reflexivity | exact H1]. reflexivity.
  - erewrite Cache_get_memory; [| reflexivity | exact H1].
    rewrite lookup_insert_eq. reflexivity.
Qed.

Lemma memory_cache_addressed_by_key_witness :
  exists w1,
    Cache.set (py "Hello") (py "world") env_example (startup false)
    = (Return tt, w1)
    /\ Cache.get (py "Hello ") env_example w1 = (Return None, w1).
Proof.
  destruct (memory_cache_addressed_by_key env_example (startup false) ∅
              (py "Hello") (py "Hello ")
              (py "8b1a9953c4611296a827abf8c47804d7")
              (py "d1a7fb5eab1c16cb4f7cf341cf188c3d")
              (py "world") (py "again"))
    as (w1 & w2 & Hset & Hget & _).
  - reflexivity.
  - vm_compute. reflexivity.
  - vm_compute. reflexivity.
  - exists w1. split; [exact Hset |]. rewrite Hget.
    destruct (decide (py "8b1a9953c4611296a827abf8c47804d7"
                      = py "d1a7fb5eab1c16cb4f7cf341cf188c3d")) as [E | _];
      [discriminate E | reflexivity].
Defined.

Lemma append_last (self : MetricsCollector) (m : RequestMetrics) :
  0 < max_requests self ->
  last (requests (MetricsCollector.append self m)) = Some m.
Proof.
  intros Hpos. unfold MetricsCollector.append, pop0. cbn [requests].
  destruct (Nat.ltb_spec (max_requests self) (length (requests self ++ [m])))
    as [H | H]; [| apply last_snoc].
  destruct (requests self) as [| r rs]; simpl in *; [lia |].
  apply last_snoc.
Qed.

(** X18. The response time kept in the metrics is not the one
    returned to the client: [record_request] reads the clock again.
    With a clock that never goes back, the observation appended for a
    served request has a [response_time] no smaller than the
    response's. *)
Theorem recorded_time_is_not_less (request : GenerateRequest) (env : Env)
    (w w' : World) (r : GenerateResponse) :
  monotone_clock env ->
  0 < max_requests (metrics_collector w) ->
  generate_text request env w = (Return r, w') ->
  exists m,
    last (requests (metrics_collector w')) = Some m
    /\ (response_time' r <= response_time m)%Q.
Proof.
  intros Hmono Hpos. rewrite generate_text_unfold.
  destruct (Cache.get (text request) env (logged time_time w))
    as [[c | e] w1] eqn:Hget; [| discriminate].
  destruct (lookup_calls _ _ _ _ _ Hget) as (_ & Hmc1 & _).
  destruct (Cache_get_key _ _ _ _ _ Hget) as [key Hk].
  assert (Hstep : forall n start,
             (clock env n - start <= clock env (S n) - start)%Q).
  { intros n start. unfold Qminus. apply Qplus_le_compat; [| apply Qle_refl].
    apply Hmono. lia. }
  destruct (truthy_opt c).
  - rewrite respond_cached_unfold, record_request_unfold. cbv zeta.
    destruct (psutil_virtual_memory_percent env _); [| discriminate].
    destruct (psutil_cpu_percent env _); [| discriminate].
    intros [= <- <-]. cbn [metrics_collector logged].
    eexists. split; [apply append_last; rewrite Hmc1; exact Hpos |].
    cbn [response_time response_time' calls]. rewrite length_app.
    cbn [length]. rewrite Nat.add_1_r. apply Hstep.
  - rewrite generate_unfold. cbv zeta.
    destruct (engine env (length (calls w1)) (text request)
                (max_length request) (temperature request))
      as [output | e]; [| discriminate].
    destruct (Cache_set_returns (text request) key
                (remove_input (text request) output) env
                (logged (model_generate (text request) (max_length request)
                           (temperature request)) w1) Hk)
      as (w2 & Hset & Hmc2 & _).
    rewrite Hset, record_request_unfold. cbv zeta.
    destruct (psutil_virtual_memory_percent env _); [| discriminate].
    destruct (psutil_cpu_percent env _); [| discriminate].
    intros [= <- <-]. cbn [metrics_collector logged].
    eexists. split.
    + apply append_last. rewrite Hmc2. cbn [metrics_collector logged].
      rewrite Hmc1. exact Hpos.
    + cbn [response_time response_time' calls]. rewrite length_app.
      cbn [length]. rewrite Nat.add_1_r. apply Hstep.
Qed.

Lemma recorded_time_is_not_less_witness :
  monotone_clock env_example
  /\ exists m,
       last (requests (metrics_collector world_hello_cached)) = Some m
       /\ (2 <= response_time m)%Q.
Proof.
  assert (Hm : monotone_clock env_example).
  { intros i j Hij. unfold env_example, clock, Qle. simpl. lia. }
  split; [exact Hm |].
  destruct (recorded_time_is_not_less request_example env_example
              (startup false) world_hello_cached
              {| response := py "world"; cached := false;
                 response_time' := 2 |} Hm) as (m & Hl & Ht).
  - vm_compute. lia.
  - vm_compute. reflexivity.
  - exists m. split; [exact Hl | exact Ht].
Defined.

(** ** No retry *)

Lemma filter_none {A} (f : A -> bool) (l : list A) :
  Forall (fun x => f x = false) l -> List.filter f l = [].
Proof.
  induction 1 as [| x l Hx _ IH]; [reflexivity |].
  simpl. rewrite Hx. exact IH.
Qed.

Lemma read_only_not_engine (evs : list event) :
  Forall read_only_event evs ->
  Forall (fun ev => is_engine_call ev = false) evs.
Proof.
  apply List.Forall_impl. intros [] H; try reflexivity. destruct H.
Qed.

(** The calls of the [try] block: the engine once, then only writes to
    the cache, the clock and psutil. *)
Lemma generate_calls_once (request : GenerateRequest) (start_time : Q)
    (env : Env) (w : World) (key : str) :
  Cache._get_key (text request) = Return key ->
  exists rest,
    calls (snd (generate request start_time env w))
    = calls w ++ [model_generate (text request) (max_length request)
                    (temperature request)] ++ rest
    /\ Forall (fun ev => is_engine_call ev = false) rest.
Proof.
  intros Hk. rewrite generate_unfold. cbv zeta.
  destruct (engine env (length (calls w)) (text request) (max_length request)
              (temperature request)) as [output | e].
  - destruct (Cache_set_returns (text request) key
                (remove_input (text request) output) env
                (logged (model_generate (text request) (max_length request)
                           (temperature request)) w) Hk)
      as (w2 & Hset & _ & _ & evs & Hcalls & Hevs).
    rewrite Hset.
    destruct (record_request_calls start_time (text request)
                (remove_input (text request) output) false env
                (logged time_time w2)) as (evs' & Hrec & Hevs').
    exists (evs ++ [time_time] ++ evs'). split.
    + destruct (MetricsCollector.record_request _ _ _ _ env
                  (logged time_time w2)) as [[[] | e] w3];
        cbn [snd] in *; rewrite Hrec; unfold logged; cbn [calls];
        rewrite Hcalls; unfold logged; cbn [calls];
        rewrite <- !app_assoc; reflexivity.
    + apply List.Forall_app. split.
      * revert Hevs. apply List.Forall_impl. intros ev ->. reflexivity.
      * apply List.Forall_app. split; [repeat constructor |].
        apply read_only_not_engine, sampling_read_only. exact Hevs'.
  - exists []. split; [reflexivity | constructor].
Qed.

(** X19. No request calls the engine twice: among the calls made
    while serving a request there is at most one call of the engine,
    whatever fails. *)
Theorem at_most_one_engine_call (request : GenerateRequest) (env : Env)
    (w : World) :
  length (List.filter is_engine_call
            (calls_since w (snd (generate_text request env w)))) <= 1.
Proof.
  rewrite generate_text_unfold.
  destruct (Cache.get (text request) env (logged time_time w))
    as [[c | e] w1] eqn:Hget.
  - destruct (lookup_calls _ _ _ _ _ Hget) as (_ & _ & lookup & Hl & Hro).
    destruct (Cache_get_key _ _ _ _ _ Hget) as [key Hk].
    apply read_only_not_engine in Hro.
    destruct (truthy_opt c).
    + destruct (respond_cached_spec request (clock env (length (calls w)))
                  (default [] c) env w1) as (_ & (evs & Hcalls & Hevs) & _).
      rewrite (calls_since_app w _
                 (([time_time] ++ lookup) ++ [time_time] ++ evs))
        by (rewrite Hcalls, Hl, <- !app_assoc; reflexivity).
      rewrite filter_none; [simpl; lia |].
      apply List.Forall_app. split.
      * apply List.Forall_app. split; [repeat constructor | exact Hro].
      * apply List.Forall_app. split; [repeat constructor |].
        apply read_only_not_engine, sampling_read_only. exact Hevs.
    + destruct (generate_calls_once request (clock env (length (calls w)))
                  env w1 key Hk) as (rest & Hcalls & Hrest).
      rewrite (calls_since_app w _
                 (([time_time] ++ lookup)
                   ++ [model_generate (text request) (max_length request)
                         (temperature request)] ++ rest))
        by (rewrite Hcalls, Hl, <- !app_assoc; reflexivity).
      rewrite !List.filter_app.
      rewrite (filter_none is_engine_call lookup Hro).
      rewrite (filter_none is_engine_call rest Hrest).
      simpl. lia.
  - cbn [snd].
    destruct (Cache_get_reads (text request) env (logged time_time w))
      as (_ & _ & Hcalls).
    rewrite Hget in Hcalls. cbn [snd] in Hcalls.
    destruct Hcalls as [H | (key & Hc & Hk & _)].
    + rewrite (calls_since_app w w1 [time_time]) by (rewrite H; reflexivity).
      simpl. lia.
    + rewrite (Cache_get_redis (text request) key env _ Hc Hk) in Hget.
      discriminate Hget.
Qed.
